(** * Focus Ruler engine (content-scripts/focus-ruler.js)

    A shallow embedding of the Focus Ruler content script: its module
    variables, the part of the host page it talks to (window listeners, the
    animation-frame callback list, the document, the extension message
    channel), and every function of the script, written in a small
    state / effect-log / exception monad; and of the storage and tab handlers
    of the service worker (background/service-worker.js) that drive it.  The
    second half of the file states and proves the properties of the
    lifecycle, the frame loop, the message handler and the worker. *)

From Stdlib Require Import Floats.PrimFloat.
From stdpp Require Import gmap strings list.

Set Warnings "-inexact-float".
Local Open Scope float_scope.
Local Open Scope string_scope.

(** ** JavaScript values

    Payload fields (message settings, stored configuration) range over
    [undefined], [null], booleans and numbers.  Numbers are IEEE-754 binary64,
    as in JavaScript.  Strings and objects as payload fields are outside the
    model. *)

Inductive JsVal : Type :=
  | JUndefined
  | JNull
  | JBool (b : bool)
  | JNum (x : float).

(** [if (v)]: ToBoolean. *)
Definition truthy (v : JsVal) : bool :=
  match v with
  | JUndefined | JNull => false
  | JBool b => b
  | JNum x => negb (is_zero x || is_nan x)
  end.

(** [v === true]. *)
Definition strict_true (v : JsVal) : bool :=
  match v with
  | JBool true => true
  | _ => false
  end.

(** [v ?? d]. *)
Definition nullish_or (v d : JsVal) : JsVal :=
  match v with
  | JUndefined | JNull => d
  | _ => v
  end.

(** Destructuring default [{ x = d }]: only [undefined] takes the default. *)
Definition default_param (v d : JsVal) : JsVal :=
  match v with
  | JUndefined => d
  | _ => v
  end.

(** The settings object [{ height, opacity }]; an absent property reads as
    [undefined]. *)
Record Settings : Type := mkSettings { height : JsVal; opacity : JsVal }.

(** [{}] *)
Definition no_settings : Settings :=
  {| height := JUndefined; opacity := JUndefined |}.

(** The text of a custom property: the template strings [`${v}px`] and
    [`${v}`]. *)
Inductive CssText : Type :=
  | Px (v : JsVal)
  | Plain (v : JsVal).

(** The three keys of the stored configuration read by the script. *)
Record Stored : Type := mkStored {
  focusRulerEnabled : JsVal;
  rulerHeight : JsVal;
  dimOpacity : JsVal
}.

(** Messages of [chrome.runtime.onMessage], by [message.type].  An absent
    (or null) [settings] / [state] property is [None]. *)
Inductive Message : Type :=
  | FOCUS_RULER_TOGGLE (enabled : JsVal) (settings : option Settings)
  | FOCUS_RULER_UPDATE_SETTINGS (settings : option Settings)
  | FOCUS_RULER_GET_STATE
  | REAPPLY_STATE (state : option Stored)
  | OTHER_MESSAGE (type : string).

(** The objects passed to [sendResponse]. *)
Inductive Response : Type :=
  | ToggleAck (enabled : JsVal)        (* { ok: true, enabled: message.enabled } *)
  | Ack                                (* { ok: true } *)
  | StateReport (enabled : bool) (y : float). (* { ok: true, enabled, y } *)

(** The two window listeners of the script.  [onMouseMove] and [onResize] are
    single function objects, so the window holds each at most once. *)
Inductive Listener : Type :=
  | OnMouseMove   (* ('mousemove', onMouseMove) *)
  | OnResize.     (* ('resize', onResize) *)

Definition Listener_eqb (a b : Listener) : bool :=
  match a, b with
  | OnMouseMove, OnMouseMove | OnResize, OnResize => true
  | _, _ => false
  end.

(** Membership in, and removal from, the host's lists. *)
Definition hasListener (l : Listener) (ls : list Listener) : bool :=
  existsb (Listener_eqb l) ls.

Definition dropListener (l : Listener) (ls : list Listener) : list Listener :=
  List.filter (fun x => negb (Listener_eqb x l)) ls.

Definition hasHandle (h : nat) (hs : list nat) : bool :=
  existsb (Nat.eqb h) hs.

Definition dropHandle (h : nat) (hs : list nat) : list nat :=
  List.filter (fun x => negb (Nat.eqb x h)) hs.

(** Calls that leave the script, in program order. *)
Inductive Effect : Type :=
  | SetProperty (name : string) (value : CssText)  (* overlay.style.setProperty *)
  | AddEventListener (l : Listener)
  | RemoveEventListener (l : Listener)
  | RequestAnimationFrame (handle : nat)
  | CancelAnimationFrame (handle : nat)
  | RemoveNode (node : nat)
  | AppendChild (node : nat)
  | ConsoleDebug (args : list string)
  | AddMessageListener
  | SendResponse (r : Response).

(** ** State *)

(** The module variables of the script.  [overlay] holds the custom
    properties of the overlay element's inline style. *)
Record Ruler : Type := mkRuler {
  shadowHost : option nat;
  shadowRoot : option nat;
  overlay : option (gmap string CssText);
  isEnabled : bool;
  rafId : option nat;
  pendingY : option float;
  currentY : float
}.

(** The host page, as far as the script touches it.  [document] lists, in
    document order, the attached elements whose id is [SHADOW_HOST_ID];
    [frameCallbacks] is the list of animation frame callbacks requested by
    the script and not yet run or cancelled (all of them are [loop]
    closures). *)
Record Page : Type := mkPage {
  innerWidth : float;
  innerHeight : float;
  document : list nat;
  nextNode : nat;
  windowListeners : list Listener;
  frameCallbacks : list nat;
  nextFrameHandle : nat;
  onMessageListeners : nat
}.

Record World : Type := mkWorld { ruler : Ruler; page : Page }.

Definition with_ruler (f : Ruler -> Ruler) (w : World) : World :=
  {| ruler := f (ruler w); page := page w |}.

Definition with_page (f : Page -> Page) (w : World) : World :=
  {| ruler := ruler w; page := f (page w) |}.

Definition set_shadowHost (v : option nat) (r : Ruler) : Ruler :=
  mkRuler v (shadowRoot r) (overlay r) (isEnabled r) (rafId r) (pendingY r) (currentY r).
Definition set_shadowRoot (v : option nat) (r : Ruler) : Ruler :=
  mkRuler (shadowHost r) v (overlay r) (isEnabled r) (rafId r) (pendingY r) (currentY r).
Definition set_overlay (v : option (gmap string CssText)) (r : Ruler) : Ruler :=
  mkRuler (shadowHost r) (shadowRoot r) v (isEnabled r) (rafId r) (pendingY r) (currentY r).
Definition set_isEnabled (v : bool) (r : Ruler) : Ruler :=
  mkRuler (shadowHost r) (shadowRoot r) (overlay r) v (rafId r) (pendingY r) (currentY r).
Definition set_rafId (v : option nat) (r : Ruler) : Ruler :=
  mkRuler (shadowHost r) (shadowRoot r) (overlay r) (isEnabled r) v (pendingY r) (currentY r).
Definition set_pendingY (v : option float) (r : Ruler) : Ruler :=
  mkRuler (shadowHost r) (shadowRoot r) (overlay r) (isEnabled r) (rafId r) v (currentY r).
Definition set_currentY (v : float) (r : Ruler) : Ruler :=
  mkRuler (shadowHost r) (shadowRoot r) (overlay r) (isEnabled r) (rafId r) (pendingY r) v.

Definition set_viewport (w h : float) (p : Page) : Page :=
  mkPage w h (document p) (nextNode p) (windowListeners p)
         (frameCallbacks p) (nextFrameHandle p) (onMessageListeners p).
Definition set_document (v : list nat) (p : Page) : Page :=
  mkPage (innerWidth p) (innerHeight p) v (nextNode p) (windowListeners p)
         (frameCallbacks p) (nextFrameHandle p) (onMessageListeners p).
Definition set_nextNode (v : nat) (p : Page) : Page :=
  mkPage (innerWidth p) (innerHeight p) (document p) v (windowListeners p)
         (frameCallbacks p) (nextFrameHandle p) (onMessageListeners p).
Definition set_windowListeners (v : list Listener) (p : Page) : Page :=
  mkPage (innerWidth p) (innerHeight p) (document p) (nextNode p) v
         (frameCallbacks p) (nextFrameHandle p) (onMessageListeners p).
Definition set_frameCallbacks (v : list nat) (p : Page) : Page :=
  mkPage (innerWidth p) (innerHeight p) (document p) (nextNode p) (windowListeners p)
         v (nextFrameHandle p) (onMessageListeners p).
Definition set_nextFrameHandle (v : nat) (p : Page) : Page :=
  mkPage (innerWidth p) (innerHeight p) (document p) (nextNode p) (windowListeners p)
         (frameCallbacks p) v (onMessageListeners p).
Definition set_onMessageListeners (v : nat) (p : Page) : Page :=
  mkPage (innerWidth p) (innerHeight p) (document p) (nextNode p) (windowListeners p)
         (frameCallbacks p) (nextFrameHandle p) v.

(** ** The monad: state, effect log, exceptions *)

Inductive Outcome (A : Type) : Type :=
  | Returned (a : A)
  | Thrown (message : string).
Arguments Returned {A} a.
Arguments Thrown {A} message.

Record Run (A : Type) : Type := mkRun {
  outcome : Outcome A;
  world : World;
  effects : list Effect
}.
Arguments mkRun {A} _ _ _.
Arguments outcome {A} _.
Arguments world {A} _.
Arguments effects {A} _.

Definition Js (A : Type) : Type := World -> Run A.

Definition ret {A} (a : A) : Js A := fun w => mkRun (Returned a) w [].

Definition bind {A B} (m : Js A) (k : A -> Js B) : Js B := fun w =>
  let r := m w in
  match outcome r with
  | Returned a =>
      let r' := k a (world r) in
      mkRun (outcome r') (world r') (effects r ++ effects r')
  | Thrown e => mkRun (Thrown e) (world r) (effects r)
  end.

Definition throw {A} (e : string) : Js A := fun w => mkRun (Thrown e) w [].

(** [try { body } catch (err) { handler(err.message) }] *)
Definition try_catch {A} (body : Js A) (handler : string -> Js A) : Js A := fun w =>
  let r := body w in
  match outcome r with
  | Returned a => r
  | Thrown e =>
      let r' := handler e (world r) in
      mkRun (outcome r') (world r') (effects r ++ effects r')
  end.

Definition gets {A} (f : World -> A) : Js A := fun w => mkRun (Returned (f w)) w [].
Definition modify (f : World -> World) : Js unit := fun w => mkRun (Returned tt) (f w) [].
Definition emit (e : Effect) : Js unit := fun w => mkRun (Returned tt) w [e].

Declare Scope js_scope.
Delimit Scope js_scope with js.
Notation "'let!' x ':=' m 'in' k" := (bind m (fun x => k))
  (at level 10, x name, m at level 100, k at level 200) : js_scope.
Notation "m '>>' k" := (bind m (fun _ => k))
  (at level 60, right associativity) : js_scope.
Local Open Scope js_scope.

(** ** Constants *)

Definition DEFAULT_HEIGHT : float := 40.
Definition DEFAULT_OPACITY : float := 0.75.

(** ** Host primitives *)

(** [window.addEventListener(type, callback, { passive: true })]: a listener
    already present is not added again. *)
Definition addEventListener (l : Listener) : Js unit :=
  modify (with_page (fun p =>
    if hasListener l (windowListeners p) then p
    else set_windowListeners (windowListeners p ++ [l]) p)) >>
  emit (AddEventListener l).

Definition removeEventListener (l : Listener) : Js unit :=
  modify (with_page (fun p =>
    set_windowListeners (dropListener l (windowListeners p)) p)) >>
  emit (RemoveEventListener l).

(** [requestAnimationFrame(loop)] *)
Definition requestAnimationFrame : Js nat :=
  let! h := gets (fun w => nextFrameHandle (page w)) in
  modify (with_page (fun p =>
    set_nextFrameHandle (S h) (set_frameCallbacks (frameCallbacks p ++ [h]) p))) >>
  emit (RequestAnimationFrame h) >>
  ret h.

Definition cancelAnimationFrame (h : nat) : Js unit :=
  modify (with_page (fun p =>
    set_frameCallbacks (dropHandle h (frameCallbacks p)) p)) >>
  emit (CancelAnimationFrame h).

(** [node.remove()] *)
Definition removeNode (n : nat) : Js unit :=
  modify (with_page (fun p =>
    set_document (dropHandle n (document p)) p)) >>
  emit (RemoveNode n).

(** [document.createElement('div')] for the shadow host. *)
Definition createElement : Js nat :=
  let! n := gets (fun w => nextNode (page w)) in
  modify (with_page (set_nextNode (S n))) >>
  ret n.

(** [(document.body || document.documentElement).appendChild(node)] *)
Definition appendChild (n : nat) : Js unit :=
  modify (with_page (fun p =>
    set_document (dropHandle n (document p) ++ [n]) p)) >>
  emit (AppendChild n).

Definition console_debug (args : list string) : Js unit :=
  emit (ConsoleDebug args).

Definition sendResponse (r : Response) : Js unit :=
  emit (SendResponse r).

(** What [chrome.storage.local.get] settles to. *)
Inductive StorageReply : Type :=
  | StorageResult (result : Stored)
  | StorageFailure (message : string).

(** [await chrome.storage.local.get([...])] *)
Definition storage_get (reply : StorageReply) : Js Stored :=
  match reply with
  | StorageResult result => ret result
  | StorageFailure e => throw e
  end.

(** ** The script *)

(** [overlay?.style.setProperty(name, value)] *)
Definition setVar (name : string) (value : CssText) : Js unit :=
  let! ov := gets (fun w => overlay (ruler w)) in
  match ov with
  | Some style =>
      modify (with_ruler (set_overlay (Some (<[name := value]> style)))) >>
      emit (SetProperty name value)
  | None => ret tt
  end.

Definition applySettings (settings : Settings) : Js unit :=
  (match height settings with
   | JUndefined => ret tt
   | h => setVar "--ruler-height" (Px h)
   end) >>
  (match opacity settings with
   | JUndefined => ret tt
   | o => setVar "--dim-opacity" (Plain o)
   end).

Definition createOverlay (settings : Settings) : Js unit :=
  let height := default_param (height settings) (JNum DEFAULT_HEIGHT) in
  let opacity := default_param (opacity settings) (JNum DEFAULT_OPACITY) in
  let! doc := gets (fun w => document (page w)) in
  (match doc with
   | old :: _ => removeNode old
   | [] => ret tt
   end) >>
  let! host := createElement in
  modify (with_ruler (set_shadowHost (Some host))) >>
  modify (with_ruler (set_shadowRoot (Some host))) >>
  modify (with_ruler (set_overlay (Some ∅))) >>
  (let! y := gets (fun w => currentY (ruler w)) in setVar "--ruler-y" (Px (JNum y))) >>
  setVar "--ruler-height" (Px height) >>
  setVar "--dim-opacity" (Plain opacity) >>
  (let! vw := gets (fun w => innerWidth (page w)) in setVar "--vw" (Px (JNum vw))) >>
  (let! vh := gets (fun w => innerHeight (page w)) in setVar "--vh" (Px (JNum vh))) >>
  appendChild host.

Definition destroyOverlay : Js unit :=
  let! host := gets (fun w => shadowHost (ruler w)) in
  (match host with
   | Some h => removeNode h
   | None => ret tt
   end) >>
  modify (with_ruler (set_shadowHost None)) >>
  modify (with_ruler (set_shadowRoot None)) >>
  modify (with_ruler (set_overlay None)).

(** The frame callback declared inside [startRaf]. *)
Definition loop : Js unit :=
  let! en := gets (fun w => isEnabled (ruler w)) in
  if negb en then ret tt
  else
    (let! p := gets (fun w => pendingY (ruler w)) in
     match p with
     | Some y =>
         modify (with_ruler (set_currentY y)) >>
         modify (with_ruler (set_pendingY None)) >>
         let! cy := gets (fun w => currentY (ruler w)) in
         setVar "--ruler-y" (Px (JNum cy))
     | None => ret tt
     end) >>
    let! h := requestAnimationFrame in
    modify (with_ruler (set_rafId (Some h))).

Definition startRaf : Js unit :=
  let! h := requestAnimationFrame in
  modify (with_ruler (set_rafId (Some h))).

Definition stopRaf : Js unit :=
  let! id := gets (fun w => rafId (ruler w)) in
  match id with
  | Some h => cancelAnimationFrame h >> modify (with_ruler (set_rafId None))
  | None => ret tt
  end.

Definition onMouseMove (clientY : float) : Js unit :=
  modify (with_ruler (set_pendingY (Some clientY))).

Definition onResize : Js unit :=
  (let! vw := gets (fun w => innerWidth (page w)) in setVar "--vw" (Px (JNum vw))) >>
  (let! vh := gets (fun w => innerHeight (page w)) in setVar "--vh" (Px (JNum vh))).

Definition enable (settings : Settings) : Js unit :=
  let! en := gets (fun w => isEnabled (ruler w)) in
  if en then applySettings settings
  else
    modify (with_ruler (set_isEnabled true)) >>
    createOverlay settings >>
    addEventListener OnMouseMove >>
    addEventListener OnResize >>
    startRaf >>
    console_debug ["[AccessiLens] Focus Ruler enabled."].

Definition disable : Js unit :=
  let! en := gets (fun w => isEnabled (ruler w)) in
  if negb en then ret tt
  else
    modify (with_ruler (set_isEnabled false)) >>
    stopRaf >>
    removeEventListener OnMouseMove >>
    removeEventListener OnResize >>
    destroyOverlay >>
    console_debug ["[AccessiLens] Focus Ruler disabled."].

(** [message.settings?.height], [message.settings?.opacity] *)
Definition optional_settings (settings : option Settings) : Settings :=
  match settings with
  | Some s => {| height := height s; opacity := opacity s |}
  | None => no_settings
  end.

(** The listener registered by [registerMessageListener]; it returns [true]. *)
Definition onMessage (message : Message) : Js bool :=
  (match message with
   | FOCUS_RULER_TOGGLE enabled settings =>
       (if truthy enabled then enable (optional_settings settings) else disable) >>
       sendResponse (ToggleAck enabled)
   | FOCUS_RULER_UPDATE_SETTINGS settings =>
       applySettings (default no_settings settings) >>
       sendResponse Ack
   | FOCUS_RULER_GET_STATE =>
       let! en := gets (fun w => isEnabled (ruler w)) in
       let! y := gets (fun w => currentY (ruler w)) in
       sendResponse (StateReport en y)
   | REAPPLY_STATE state =>
       let s := default (mkStored JUndefined JUndefined JUndefined) state in
       (if truthy (focusRulerEnabled s)
        then enable {| height := rulerHeight s; opacity := dimOpacity s |}
        else disable) >>
       sendResponse Ack
   | OTHER_MESSAGE _ => ret tt
   end) >>
  ret true.

Definition registerMessageListener : Js unit :=
  modify (with_page (fun p => set_onMessageListeners (S (onMessageListeners p)) p)) >>
  emit AddMessageListener.

(** [init], resumed with what the storage read settled to. *)
Definition init (reply : StorageReply) : Js unit :=
  try_catch
    (let! result := storage_get reply in
     if strict_true (focusRulerEnabled result)
     then enable {| height := nullish_or (rulerHeight result) (JNum DEFAULT_HEIGHT);
                    opacity := nullish_or (dimOpacity result) (JNum DEFAULT_OPACITY) |}
     else ret tt)
    (fun message =>
       console_debug ["[AccessiLens] focus-ruler storage read failed:"; message]) >>
  registerMessageListener.

(** The module variables when the script has been evaluated in a page whose
    viewport is [vw] by [vh]: [DEFAULT_Y = window.innerHeight / 2] is taken
    here, once. *)
Definition load (vw vh : float) : World :=
  {| ruler := {| shadowHost := None; shadowRoot := None; overlay := None;
                 isEnabled := false; rafId := None; pendingY := None;
                 currentY := vh / 2 |};
     page := {| innerWidth := vw; innerHeight := vh; document := [];
                nextNode := 0; windowListeners := []; frameCallbacks := [];
                nextFrameHandle := 1; onMessageListeners := 0 |} |}.

(** ** The host event loop *)

Inductive Event : Type :=
  | MouseMove (clientY : float)
  | Resize (vw vh : float)
  | AnimationFrame
  | Incoming (message : Message).

(** Run the animation frame callbacks: the handles pending when the frame
    starts are visited in order; one that is no longer in the list (it was
    cancelled) is skipped, the others are removed and called. *)
Fixpoint run_frame_callbacks (handles : list nat) : Js unit :=
  match handles with
  | [] => ret tt
  | h :: rest =>
      (let! pending := gets (fun w => frameCallbacks (page w)) in
       if hasHandle h pending
       then modify (with_page (fun p =>
              set_frameCallbacks (dropHandle h (frameCallbacks p)) p)) >>
            loop
       else ret tt) >>
      run_frame_callbacks rest
  end.

Fixpoint deliver (n : nat) (message : Message) : Js unit :=
  match n with
  | O => ret tt
  | S k => onMessage message >> deliver k message
  end.

Definition dispatch (ev : Event) : Js unit :=
  match ev with
  | MouseMove y =>
      let! ls := gets (fun w => windowListeners (page w)) in
      if hasListener OnMouseMove ls then onMouseMove y else ret tt
  | Resize vw vh =>
      modify (with_page (set_viewport vw vh)) >>
      let! ls := gets (fun w => windowListeners (page w)) in
      if hasListener OnResize ls then onResize else ret tt
  | AnimationFrame =>
      let! handles := gets (fun w => frameCallbacks (page w)) in
      run_frame_callbacks handles
  | Incoming message =>
      let! n := gets (fun w => onMessageListeners (page w)) in
      deliver n message
  end.

Fixpoint run (evs : list Event) : Js unit :=
  match evs with
  | [] => ret tt
  | ev :: rest => dispatch ev >> run rest
  end.

(** A page context: the script is loaded, [init] completes with the storage
    reply, then the host delivers events. *)
Definition boot (vw vh : float) (reply : StorageReply) : World :=
  world (init reply (load vw vh)).

Definition session (vw vh : float) (reply : StorageReply) (evs : list Event) : World :=
  world (run evs (boot vw vh reply)).

(** ** Observations *)

(** The custom property [name] of the live overlay, if there is one. *)
Definition surfaceVar (name : string) (w : World) : option CssText :=
  match overlay (ruler w) with
  | Some style => style !! name
  | None => None
  end.

(** The surface exists: the script holds an overlay whose host is attached
    to the document. *)
Definition surfaceExists (w : World) : bool :=
  match overlay (ruler w), shadowHost (ruler w) with
  | Some _, Some h => hasHandle h (document (page w))
  | _, _ => false
  end.

Definition listenerAttached (l : Listener) (w : World) : bool :=
  hasListener l (windowListeners (page w)).

Definition frameScheduled (w : World) : bool :=
  match frameCallbacks (page w) with
  | [] => false
  | _ :: _ => true
  end.

Definition isSetProperty (e : Effect) : bool :=
  match e with
  | SetProperty _ _ => true
  | _ => false
  end.

(** The writes that reach the render surface. *)
Definition surfaceWrites (es : list Effect) : list Effect :=
  List.filter isSetProperty es.

Definition isRequestFrame (e : Effect) : bool :=
  match e with
  | RequestAnimationFrame _ => true
  | _ => false
  end.

(** * The service worker (background/service-worker.js)

    The worker keeps no state of its own: every handler reads and writes
    [chrome.storage.local] and sends messages to tabs.  A handler is a
    function from the store to the new store and the calls it made. *)

(** What the extension keeps in storage: the values above, and strings. *)
Inductive StoreVal : Type :=
  | Val (v : JsVal)
  | Str (s : string).

Abbreviation Store := (gmap string StoreVal).

(** [DEFAULTS], as [Object.entries] lists it. *)
Definition DEFAULTS : list (string * StoreVal) :=
  [("focusRulerEnabled", Val (JBool false));
   ("rulerHeight", Val (JNum 40));
   ("dimOpacity", Val (JNum 0.75));
   ("overlayEnabled", Val (JBool false));
   ("overlayColor", Str "#ffff99");
   ("overlayOpacity", Val (JNum 0.15));
   ("darkModeEnabled", Val (JBool false));
   ("cvdEnabled", Val (JBool false));
   ("cvdMode", Str "none");
   ("dyslexiaFontEnabled", Val (JBool false));
   ("textScale", Val (JNum 100));
   ("bionicReadingEnabled", Val (JBool false));
   ("typographyEngineEnabled", Val (JBool false));
   ("ttsEnabled", Val (JBool false));
   ("ttsSpeed", Val (JNum 1))].

(** ToBoolean of a property read from a stored object; a missing property
    reads as [undefined]. *)
Definition storeTruthy (o : option StoreVal) : bool :=
  match o with
  | None => false
  | Some (Val v) => truthy v
  | Some (Str EmptyString) => false
  | Some (Str (String _ _)) => true
  end.

(** [key in obj] *)
Definition hasKey (key : string) (obj : Store) : bool :=
  match obj !! key with
  | Some _ => true
  | None => false
  end.

(** [chrome.storage.local.set(items)]: every item is written over what the
    store holds under its key. *)
Definition storage_set (items : list (string * StoreVal)) (st : Store) : Store :=
  fold_left (fun acc kv => <[fst kv := snd kv]> acc) items st.

(** [chrome.storage.local.get(keys)]: the stored items under these keys. *)
Definition storage_get_keys (keys : list string) (st : Store) : Store :=
  filter (fun kv => fst kv ∈ keys) st.

(** The messages the worker sends to a tab. *)
Inductive Outgoing : Type :=
  | RulerToggle (enabled : bool)     (* { type: 'FOCUS_RULER_TOGGLE', enabled } *)
  | OverlayToggle (enabled : bool)   (* { type: 'COLOR_OVERLAY_TOGGLE', enabled } *)
  | Reapply (stored : Store).        (* { type: 'REAPPLY_STATE', state: stored } *)

Inductive WorkerEffect : Type :=
  | StorageSet (items : list (string * StoreVal))
  | ConsoleLog (text : string) (keys : list string)
  | TabsSendMessage (tab : nat) (m : Outgoing).

(** The entries of [missing] built by the update branch: the defaults whose
    key is not in [existing], in the order of [DEFAULTS]. *)
Definition missingEntries (defaults : list (string * StoreVal)) (existing : Store)
    : list (string * StoreVal) :=
  List.filter (fun kv => negb (hasKey (fst kv) existing)) defaults.

(** The callback of [chrome.storage.local.get(null, ...)] in the update
    branch; [existing] is what the read delivered. *)
Definition seedMissing (existing : Store) (st : Store) : Store * list WorkerEffect :=
  match missingEntries DEFAULTS existing with
  | [] => (st, [])
  | missing =>
      (storage_set missing st,
       [StorageSet missing;
        ConsoleLog "[ProjectOtter] Added new storage keys:" (map fst missing)])
  end.

(** The [chrome.runtime.onInstalled] listener, by [details.reason]; the read
    of the update branch delivers the whole store. *)
Definition onInstalled (reason : string) (st : Store) : Store * list WorkerEffect :=
  let r1 :=
    if String.eqb reason "install"
    then (storage_set DEFAULTS st,
          [StorageSet DEFAULTS;
           ConsoleLog "[ProjectOtter] Storage initialized with defaults." []])
    else (st, []) in
  if String.eqb reason "update"
  then let r2 := seedMissing (fst r1) (fst r1) in (fst r2, (snd r1 ++ snd r2)%list)
  else r1.

(** [broadcastToActiveTab]: [tabs] is the answer of [chrome.tabs.query], each
    tab with its id if it has one; nothing is sent unless [tabs[0]?.id] is
    truthy. *)
Definition broadcastToActiveTab (tabs : list (option nat)) (m : Outgoing)
    : list WorkerEffect :=
  match tabs with
  | Some (S id) :: _ => [TabsSendMessage (S id) m]
  | _ => []
  end.

(** The callback of the read in a shortcut branch: flip the flag under
    [key], store it, tell the active tab. *)
Definition flipFlag (key : string) (message : bool -> Outgoing)
    (result : Store) (tabs : list (option nat)) (st : Store)
    : Store * list WorkerEffect :=
  let next := negb (storeTruthy (result !! key)) in
  (storage_set [(key, Val (JBool next))] st,
   StorageSet [(key, Val (JBool next))] :: broadcastToActiveTab tabs (message next)).

(** The [chrome.commands.onCommand] listener. *)
Definition onCommand (command : string) (tabs : list (option nat)) (st : Store)
    : Store * list WorkerEffect :=
  let r1 :=
    if String.eqb command "toggle-focus-ruler"
    then flipFlag "focusRulerEnabled" RulerToggle
           (storage_get_keys ["focusRulerEnabled"] st) tabs st
    else (st, []) in
  if String.eqb command "toggle-color-overlay"
  then let r2 := flipFlag "overlayEnabled" OverlayToggle
                   (storage_get_keys ["overlayEnabled"] (fst r1)) tabs (fst r1) in
       (fst r2, (snd r1 ++ snd r2)%list)
  else r1.

(** [anyActive] of the navigation guard. *)
Definition anyActive (stored : Store) : bool :=
  storeTruthy (stored !! "focusRulerEnabled")
  || storeTruthy (stored !! "overlayEnabled")
  || storeTruthy (stored !! "darkModeEnabled")
  || storeTruthy (stored !! "cvdEnabled")
  || storeTruthy (stored !! "dyslexiaFontEnabled")
  || storeTruthy (stored !! "bionicReadingEnabled")
  || storeTruthy (stored !! "ttsEnabled").

(** The [chrome.tabs.onUpdated] listener; [status] is [changeInfo.status]. *)
Definition onUpdated (tabId : nat) (status : option string) (st : Store)
    : list WorkerEffect :=
  match status with
  | Some status' =>
      if String.eqb status' "complete"
      then let stored := storage_get_keys (map fst DEFAULTS) st in
           if anyActive stored
           then [TabsSendMessage tabId (Reapply stored)]
           else []
      else []
  | None => []
  end.

(** ** From the store to the content script *)

(** A stored property as the content script reads it; a string is outside
    what the content script is modelled on. *)
Definition fieldView (o : option StoreVal) : option JsVal :=
  match o with
  | None => Some JUndefined
  | Some (Val v) => Some v
  | Some (Str _) => None
  end.

(** The three ruler keys of a stored object. *)
Definition rulerView (stored : Store) : option Stored :=
  match fieldView (stored !! "focusRulerEnabled"),
        fieldView (stored !! "rulerHeight"),
        fieldView (stored !! "dimOpacity") with
  | Some f, Some h, Some o => Some (mkStored f h o)
  | _, _, _ => None
  end.

(** A worker message as the ruler's listener receives it. *)
Definition asMessage (m : Outgoing) : option Message :=
  match m with
  | RulerToggle enabled => Some (FOCUS_RULER_TOGGLE (JBool enabled) None)
  | OverlayToggle _ => Some (OTHER_MESSAGE "COLOR_OVERLAY_TOGGLE")
  | Reapply stored =>
      match rulerView stored with
      | Some s => Some (REAPPLY_STATE (Some s))
      | None => None
      end
  end.

(** The events a page in tab [tab] receives from the calls of a handler. *)
Definition received (tab : nat) (effs : list WorkerEffect) : list Event :=
  omap (fun e =>
          match e with
          | TabsSendMessage t m =>
              if (t =? tab)%nat then Incoming <$> asMessage m else None
          | _ => None
          end) effs.

(** The store with the defaults written over it. *)
Definition defaultsOver (st : Store) : Store :=
  (list_to_map DEFAULTS : Store) ∪ st.

(** * Vocabulary of the properties

    The shapes a world takes between two handlers, the wiring invariant, and
    the scenarios and observations the theorems below are stated with. *)

(** The ruler torn down: no host, no overlay, no listener, no callback. *)
Definition disabledWorld (pend : option float) (cur vw vh : float)
    (nn nf ml : nat) : World :=
  mkWorld (mkRuler None None None false None pend cur)
          (mkPage vw vh [] nn [] [] nf ml).

(** The ruler wired: host [h] attached, overlay style [st], both listeners,
    and the one pending callback [id]. *)
Definition enabledWorld (h id : nat) (st : gmap string CssText)
    (pend : option float) (cur vw vh : float) (nn nf ml : nat) : World :=
  mkWorld (mkRuler (Some h) (Some h) (Some st) true (Some id) pend cur)
          (mkPage vw vh [h] nn [OnMouseMove; OnResize] [id] nf ml).

(** The style [createOverlay] gives a new overlay. *)
Definition initialStyle (s : Settings) (cur vw vh : float) : gmap string CssText :=
  <["--vh" := Px (JNum vh)]>
    (<["--vw" := Px (JNum vw)]>
       (<["--dim-opacity" := Plain (default_param (opacity s) (JNum DEFAULT_OPACITY))]>
          (<["--ruler-height" := Px (default_param (height s) (JNum DEFAULT_HEIGHT))]>
             (<["--ruler-y" := Px (JNum cur)]> ∅)))).

Definition createWrites (s : Settings) (cur vw vh : float) : list Effect :=
  [SetProperty "--ruler-y" (Px (JNum cur));
   SetProperty "--ruler-height" (Px (default_param (height s) (JNum DEFAULT_HEIGHT)));
   SetProperty "--dim-opacity" (Plain (default_param (opacity s) (JNum DEFAULT_OPACITY)));
   SetProperty "--vw" (Px (JNum vw));
   SetProperty "--vh" (Px (JNum vh))].

(** What [applySettings] does to an existing style, and what it writes. *)
Definition styled (s : Settings) (st : gmap string CssText) : gmap string CssText :=
  let st1 := match height s with
             | JUndefined => st
             | h => <["--ruler-height" := Px h]> st
             end in
  match opacity s with
  | JUndefined => st1
  | o => <["--dim-opacity" := Plain o]> st1
  end.

Definition settingsWrites (s : Settings) : list Effect :=
  match height s with
  | JUndefined => []
  | h => [SetProperty "--ruler-height" (Px h)]
  end ++
  match opacity s with
  | JUndefined => []
  | o => [SetProperty "--dim-opacity" (Plain o)]
  end.

(** The wiring invariant: enabled means host, overlay, listeners and exactly
    one pending callback (the one [rafId] names); disabled means none of
    them. *)
Definition consistent (w : World) : Prop :=
  if isEnabled (ruler w)
  then exists h id st,
         shadowHost (ruler w) = Some h /\ shadowRoot (ruler w) = Some h /\
         overlay (ruler w) = Some st /\ rafId (ruler w) = Some id /\
         document (page w) = [h] /\
         windowListeners (page w) = [OnMouseMove; OnResize] /\
         frameCallbacks (page w) = [id]
  else shadowHost (ruler w) = None /\ shadowRoot (ruler w) = None /\
       overlay (ruler w) = None /\ rafId (ruler w) = None /\
       document (page w) = [] /\ windowListeners (page w) = [] /\
       frameCallbacks (page w) = [].

(** [tame w r]: the run [r] from [w] returned normally into a consistent
    world and left the committed and pending positions alone. *)
Definition tame {A} (w : World) (r : Run A) : Prop :=
  (exists a, outcome r = Returned a) /\
  consistent (world r) /\
  currentY (ruler (world r)) = currentY (ruler w) /\
  pendingY (ruler (world r)) = pendingY (ruler w).


(** The number inside a property text, when there is one. *)
Definition numberOf (c : option CssText) : float :=
  match c with
  | Some (Px (JNum x)) | Some (Plain (JNum x)) => x
  | _ => 0
  end.

(** The page of the first scenario: the ruler is off, the popup sends a
    settings update with thickness 60 and intensity 0.3, then a toggle that
    carries no settings (the keyboard shortcut of the service worker). *)
Definition staged_then_toggled : World :=
  session 1280 800
    (StorageResult (mkStored (JBool false) JUndefined JUndefined))
    [Incoming (FOCUS_RULER_UPDATE_SETTINGS
                 (Some {| height := JNum 60; opacity := JNum 0.3 |}));
     Incoming (FOCUS_RULER_TOGGLE (JBool true) None)].

(** The second scenario: enabled with 60 and 0.3, disabled, enabled again
    without settings. *)
Definition cycled_without_settings : World :=
  session 1280 800
    (StorageResult (mkStored (JBool false) JUndefined JUndefined))
    [Incoming (FOCUS_RULER_TOGGLE (JBool true)
                 (Some {| height := JNum 60; opacity := JNum 0.3 |}));
     Incoming (FOCUS_RULER_TOGGLE (JBool false) None);
     Incoming (FOCUS_RULER_TOGGLE (JBool true) None)].

(** The pending slot after the samples [ys], starting from [pend]. *)
Definition pendingAfter (ys : list float) (pend : option float) : option float :=
  fold_left (fun _ y => Some y) ys pend.

(** The events that ask for the ruler to be switched on. *)
Definition enabling (ev : Event) : bool :=
  match ev with
  | Incoming (FOCUS_RULER_TOGGLE e _) => truthy e
  | Incoming (REAPPLY_STATE st) =>
      truthy (focusRulerEnabled (default (mkStored JUndefined JUndefined JUndefined) st))
  | _ => false
  end.

Definition isResponse (e : Effect) : bool :=
  match e with
  | SendResponse _ => true
  | _ => false
  end.


(** A write of the ruler position. *)
Definition isPositionWrite (e : Effect) : bool :=
  match e with
  | SetProperty name _ => String.eqb name "--ruler-y"
  | _ => false
  end.

Definition positionWrites (es : list Effect) : list Effect :=
  List.filter isPositionWrite es.

Definition isFrame (ev : Event) : bool :=
  match ev with
  | AnimationFrame => true
  | _ => false
  end.

(** Events raised by the page itself, as opposed to extension messages. *)
Definition isHostEvent (ev : Event) : bool :=
  match ev with
  | Incoming _ => false
  | _ => true
  end.

(** What a style shows: the position [cur], the viewport [vw] by [vh], and
    a thickness and an intensity that were given as a value (never the text
    of [undefined]). *)
Definition shows (st : gmap string CssText) (cur vw vh : float) : Prop :=
  st !! "--ruler-y" = Some (Px (JNum cur)) /\
  st !! "--vw" = Some (Px (JNum vw)) /\
  st !! "--vh" = Some (Px (JNum vh)) /\
  (exists v, st !! "--ruler-height" = Some (Px v) /\ v <> JUndefined) /\
  (exists v, st !! "--dim-opacity" = Some (Plain v) /\ v <> JUndefined).

(** A live overlay shows the committed position and the current viewport. *)
Definition rendered (w : World) : Prop :=
  match overlay (ruler w) with
  | None => True
  | Some st =>
      shows st (currentY (ruler w)) (innerWidth (page w)) (innerHeight (page w))
  end.

Definition isAddListener (e : Effect) : bool :=
  match e with
  | AddEventListener _ => true
  | _ => false
  end.

Definition isRemoveListener (e : Effect) : bool :=
  match e with
  | RemoveEventListener _ => true
  | _ => false
  end.

Definition isCancelFrame (e : Effect) : bool :=
  match e with
  | CancelAnimationFrame _ => true
  | _ => false
  end.

(** How many effects of a log satisfy [p]. *)
Definition countEffects (p : Effect -> bool) (es : list Effect) : nat :=
  length (List.filter p es).

(** The response a message gets. *)
Definition responseTo (m : Message) (w : World) : list Effect :=
  match m with
  | FOCUS_RULER_TOGGLE e _ => [SendResponse (ToggleAck e)]
  | FOCUS_RULER_UPDATE_SETTINGS _ => [SendResponse Ack]
  | FOCUS_RULER_GET_STATE =>
      [SendResponse (StateReport (isEnabled (ruler w)) (currentY (ruler w)))]
  | REAPPLY_STATE _ => [SendResponse Ack]
  | OTHER_MESSAGE _ => []
  end.



(** [n] rounds of switching the ruler on and off again. *)
Fixpoint cycles (n : nat) (s : Settings) : Js unit :=
  match n with
  | O => ret tt
  | S k => enable s >> disable >> cycles k s
  end.

(** A disabled ruler in a document that already holds elements with the
    host id (left behind by an earlier instance of the script). *)
Definition staleWorld (stale : list nat) (pend : option float) (cur vw vh : float)
    (nn nf ml : nat) : World :=
  mkWorld (mkRuler None None None false None pend cur)
          (mkPage vw vh stale nn [] [] nf ml).

(** * Symbolic evaluation

    The operations are evaluated on the two shapes of a consistent world:
    the ruler fully wired, or fully torn down. *)

#[local] Arguments bind {A B} m k w /.
#[local] Arguments try_catch {A} body handler w /.
#[local] Arguments ret {A} a w /.
#[local] Arguments throw {A} e w /.
#[local] Arguments gets {A} f w /.
#[local] Arguments modify f w /.
#[local] Arguments emit e w /.
#[local] Arguments with_ruler _ _ /.
#[local] Arguments with_page _ _ /.
#[local] Arguments set_shadowHost _ _ /.
#[local] Arguments set_shadowRoot _ _ /.
#[local] Arguments set_overlay _ _ /.
#[local] Arguments set_isEnabled _ _ /.
#[local] Arguments set_rafId _ _ /.
#[local] Arguments set_pendingY _ _ /.
#[local] Arguments set_currentY _ _ /.
#[local] Arguments set_viewport _ _ _ /.
#[local] Arguments set_document _ _ /.
#[local] Arguments set_nextNode _ _ /.
#[local] Arguments set_windowListeners _ _ /.
#[local] Arguments set_frameCallbacks _ _ /.
#[local] Arguments set_nextFrameHandle _ _ /.
#[local] Arguments set_onMessageListeners _ _ /.
#[local] Arguments dropHandle _ _ /.
#[local] Arguments dropListener _ _ /.
#[local] Arguments hasHandle _ _ /.
#[local] Arguments hasListener _ _ /.

Ltac js_eval := repeat (cbn; rewrite ?Nat.eqb_refl); cbn.

#[local] Arguments enabledWorld _ _ _ _ _ _ _ _ _ _ /.
#[local] Arguments disabledWorld _ _ _ _ _ _ _ /.

#[local] Arguments consistent : simpl never.

Lemma consistent_enabledWorld h id st pend cur vw vh nn nf ml :
  consistent (enabledWorld h id st pend cur vw vh nn nf ml).
Proof. unfold consistent; cbn. exists h, id, st. repeat split. Qed.

Lemma consistent_disabledWorld pend cur vw vh nn nf ml :
  consistent (disabledWorld pend cur vw vh nn nf ml).
Proof. unfold consistent; cbn. repeat split. Qed.

Lemma consistent_enabled_shape w :
  consistent w -> isEnabled (ruler w) = true ->
  exists h id st pend cur vw vh nn nf ml,
    w = enabledWorld h id st pend cur vw vh nn nf ml.
Proof.
  unfold consistent. intros Hc He. rewrite He in Hc.
  destruct Hc as (h & id & st & H1 & H2 & H3 & H4 & H5 & H6 & H7).
  destruct w as [[sh sr ov en raf pend cur] [vw vh doc nn wl fc nf ml]].
  exists h, id, st, pend, cur, vw, vh, nn, nf, ml. cbn in *. congruence.
Qed.

Lemma consistent_disabled_shape w :
  consistent w -> isEnabled (ruler w) = false ->
  exists pend cur vw vh nn nf ml, w = disabledWorld pend cur vw vh nn nf ml.
Proof.
  unfold consistent. intros Hc He. rewrite He in Hc.
  destruct Hc as (H1 & H2 & H3 & H4 & H5 & H6 & H7).
  destruct w as [[sh sr ov en raf pend cur] [vw vh doc nn wl fc nf ml]].
  exists pend, cur, vw, vh, nn, nf, ml. cbn in *. congruence.
Qed.

(** Case analysis on a consistent world [w] (a variable): it is replaced by
    one of the two shapes. *)
Ltac shape w Hc :=
  let He := fresh "He" in
  destruct (isEnabled (ruler w)) eqn:He;
  [ destruct (consistent_enabled_shape w Hc He)
      as (?h & ?id & ?st & ?pend & ?cur & ?vw & ?vh & ?nn & ?nf & ?ml & ->)
  | destruct (consistent_disabled_shape w Hc He)
      as (?pend & ?cur & ?vw & ?vh & ?nn & ?nf & ?ml & ->) ];
  clear He Hc.

(** ** Lifecycle *)

Lemma enable_disabledWorld s pend cur vw vh nn nf ml :
  enable s (disabledWorld pend cur vw vh nn nf ml) =
  mkRun (Returned tt)
        (enabledWorld nn nf (initialStyle s cur vw vh) pend cur vw vh (S nn) (S nf) ml)
        (createWrites s cur vw vh ++
         [AppendChild nn; AddEventListener OnMouseMove; AddEventListener OnResize;
          RequestAnimationFrame nf;
          ConsoleDebug ["[AccessiLens] Focus Ruler enabled."]]).
Proof. reflexivity. Qed.

Lemma applySettings_enabledWorld s h id st pend cur vw vh nn nf ml :
  applySettings s (enabledWorld h id st pend cur vw vh nn nf ml) =
  mkRun (Returned tt) (enabledWorld h id (styled s st) pend cur vw vh nn nf ml)
        (settingsWrites s).
Proof.
  destruct s as [hv ov]. unfold styled, settingsWrites.
  destruct hv, ov; reflexivity.
Qed.

Lemma applySettings_no_overlay s w :
  overlay (ruler w) = None -> applySettings s w = mkRun (Returned tt) w [].
Proof.
  intros Hov. destruct w as [r p]. destruct s as [hv ov].
  unfold applySettings, setVar.
  destruct hv, ov; cbn in *; rewrite ?Hov; cbn; rewrite ?Hov; reflexivity.
Qed.

Lemma enable_enabled s w :
  isEnabled (ruler w) = true -> enable s w = applySettings s w.
Proof.
  intros He. unfold enable. cbn. rewrite He.
  destruct (applySettings s w) as [[] ? ?]; cbn; reflexivity.
Qed.

Lemma enable_enabledWorld s h id st pend cur vw vh nn nf ml :
  enable s (enabledWorld h id st pend cur vw vh nn nf ml) =
  mkRun (Returned tt) (enabledWorld h id (styled s st) pend cur vw vh nn nf ml)
        (settingsWrites s).
Proof. rewrite enable_enabled by reflexivity. apply applySettings_enabledWorld. Qed.

Lemma disable_enabledWorld h id st pend cur vw vh nn nf ml :
  disable (enabledWorld h id st pend cur vw vh nn nf ml) =
  mkRun (Returned tt) (disabledWorld pend cur vw vh nn nf ml)
        [CancelAnimationFrame id; RemoveEventListener OnMouseMove;
         RemoveEventListener OnResize; RemoveNode h;
         ConsoleDebug ["[AccessiLens] Focus Ruler disabled."]].
Proof. js_eval. reflexivity. Qed.

Lemma disable_disabled w :
  isEnabled (ruler w) = false -> disable w = mkRun (Returned tt) w [].
Proof. intros He. unfold disable. cbn. rewrite He. reflexivity. Qed.

(** ** Frame loop and input *)

Lemma loop_disabled w :
  isEnabled (ruler w) = false -> loop w = mkRun (Returned tt) w [].
Proof. intros He. unfold loop. cbn. rewrite He. reflexivity. Qed.

Lemma frame_enabledWorld_pending h id st y cur vw vh nn nf ml :
  dispatch AnimationFrame (enabledWorld h id st (Some y) cur vw vh nn nf ml) =
  mkRun (Returned tt)
        (enabledWorld h nf (<["--ruler-y" := Px (JNum y)]> st) None y vw vh nn (S nf) ml)
        [SetProperty "--ruler-y" (Px (JNum y)); RequestAnimationFrame nf].
Proof. js_eval. reflexivity. Qed.

Lemma frame_enabledWorld_idle h id st cur vw vh nn nf ml :
  dispatch AnimationFrame (enabledWorld h id st None cur vw vh nn nf ml) =
  mkRun (Returned tt) (enabledWorld h nf st None cur vw vh nn (S nf) ml)
        [RequestAnimationFrame nf].
Proof. js_eval. reflexivity. Qed.

Lemma frame_disabledWorld pend cur vw vh nn nf ml :
  dispatch AnimationFrame (disabledWorld pend cur vw vh nn nf ml) =
  mkRun (Returned tt) (disabledWorld pend cur vw vh nn nf ml) [].
Proof. reflexivity. Qed.

Lemma mousemove_enabledWorld y h id st pend cur vw vh nn nf ml :
  dispatch (MouseMove y) (enabledWorld h id st pend cur vw vh nn nf ml) =
  mkRun (Returned tt) (enabledWorld h id st (Some y) cur vw vh nn nf ml) [].
Proof. reflexivity. Qed.

Lemma mousemove_disabledWorld y pend cur vw vh nn nf ml :
  dispatch (MouseMove y) (disabledWorld pend cur vw vh nn nf ml) =
  mkRun (Returned tt) (disabledWorld pend cur vw vh nn nf ml) [].
Proof. reflexivity. Qed.

Lemma resize_enabledWorld vw' vh' h id st pend cur vw vh nn nf ml :
  dispatch (Resize vw' vh') (enabledWorld h id st pend cur vw vh nn nf ml) =
  mkRun (Returned tt)
        (enabledWorld h id
           (<["--vh" := Px (JNum vh')]> (<["--vw" := Px (JNum vw')]> st))
           pend cur vw' vh' nn nf ml)
        [SetProperty "--vw" (Px (JNum vw')); SetProperty "--vh" (Px (JNum vh'))].
Proof. reflexivity. Qed.

Lemma resize_disabledWorld vw' vh' pend cur vw vh nn nf ml :
  dispatch (Resize vw' vh') (disabledWorld pend cur vw vh nn nf ml) =
  mkRun (Returned tt) (disabledWorld pend cur vw' vh' nn nf ml) [].
Proof. reflexivity. Qed.

(** ** Handlers keep the wiring *)

Ltac tame_shape :=
  unfold tame; js_eval;
  split; [eexists; reflexivity |];
  split; [first [ exact (consistent_enabledWorld _ _ _ _ _ _ _ _ _ _)
                | exact (consistent_disabledWorld _ _ _ _ _ _ _) ] |];
  split; reflexivity.

Lemma enable_tame s w : consistent w -> tame w (enable s w).
Proof.
  intros Hc. shape w Hc.
  - rewrite enable_enabledWorld. tame_shape.
  - rewrite enable_disabledWorld. tame_shape.
Qed.

Lemma disable_tame w : consistent w -> tame w (disable w).
Proof.
  intros Hc. shape w Hc.
  - rewrite disable_enabledWorld. tame_shape.
  - rewrite disable_disabled by reflexivity. tame_shape.
Qed.

Lemma applySettings_tame s w : consistent w -> tame w (applySettings s w).
Proof.
  intros Hc. shape w Hc.
  - rewrite applySettings_enabledWorld. tame_shape.
  - rewrite applySettings_no_overlay by reflexivity. tame_shape.
Qed.

(** Sequencing two tame runs. *)
Lemma bind_tame {A B} (m : Js A) (k : A -> Js B) w :
  tame w (m w) -> (forall a w', consistent w' -> tame w' (k a w')) ->
  tame w (bind m k w).
Proof.
  intros ([a Ha] & Hc & Hy & Hp) Hk. cbn. rewrite Ha.
  destruct (Hk a _ Hc) as ([b Hb] & Hc' & Hy' & Hp').
  unfold tame; cbn. repeat split; eauto; congruence.
Qed.

Lemma pure_tame {A} (m : Js A) w :
  consistent w -> (exists a, outcome (m w) = Returned a) -> world (m w) = w ->
  tame w (m w).
Proof. intros Hc Ho Hw. unfold tame. rewrite Hw. auto. Qed.

Lemma onMessage_tame m w : consistent w -> tame w (onMessage m w).
Proof.
  intros Hc. unfold onMessage.
  apply bind_tame; [| intros; apply pure_tame; cbn; eauto].
  destruct m as [e s | s | | s | t].
  - apply bind_tame; [| intros; apply pure_tame; cbn; eauto].
    destruct (truthy e); [apply enable_tame | apply disable_tame]; exact Hc.
  - apply bind_tame; [| intros; apply pure_tame; cbn; eauto].
    apply applySettings_tame; exact Hc.
  - apply pure_tame; cbn; eauto.
  - apply bind_tame; [| intros; apply pure_tame; cbn; eauto].
    destruct (truthy _); [apply enable_tame | apply disable_tame]; exact Hc.
  - apply pure_tame; cbn; eauto.
Qed.

Lemma deliver_tame n m w : consistent w -> tame w (deliver n m w).
Proof.
  revert w. induction n as [| n IH]; intros w Hc.
  - apply pure_tame; cbn; eauto.
  - cbn [deliver]. apply bind_tame; [apply onMessage_tame; exact Hc |].
    intros _ w' Hc'. apply IH; exact Hc'.
Qed.

Lemma dispatch_consistent ev w :
  consistent w ->
  outcome (dispatch ev w) = Returned tt /\ consistent (world (dispatch ev w)).
Proof.
  intros Hc. destruct ev as [y | vw' vh' | | m].
  - shape w Hc; cbn; split; try reflexivity.
    + exact (consistent_enabledWorld _ _ _ _ _ _ _ _ _ _).
    + exact (consistent_disabledWorld _ _ _ _ _ _ _).
  - shape w Hc; cbn; split; try reflexivity.
    + exact (consistent_enabledWorld _ _ _ _ _ _ _ _ _ _).
    + exact (consistent_disabledWorld _ _ _ _ _ _ _).
  - shape w Hc.
    + destruct pend as [y |].
      * rewrite frame_enabledWorld_pending. split; [reflexivity |].
        exact (consistent_enabledWorld _ _ _ _ _ _ _ _ _ _).
      * rewrite frame_enabledWorld_idle. split; [reflexivity |].
        exact (consistent_enabledWorld _ _ _ _ _ _ _ _ _ _).
    + rewrite frame_disabledWorld. split; [reflexivity |].
      exact (consistent_disabledWorld _ _ _ _ _ _ _).
  - destruct (deliver_tame (onMessageListeners (page w)) m w Hc)
      as ([[] Ho] & Hc' & _).
    cbn. split; [exact Ho | exact Hc'].
Qed.


Lemma run_cons ev evs w :
  consistent w ->
  run (ev :: evs) w =
  mkRun (outcome (run evs (world (dispatch ev w))))
        (world (run evs (world (dispatch ev w))))
        (effects (dispatch ev w) ++ effects (run evs (world (dispatch ev w)))).
Proof.
  intros Hc. destruct (dispatch_consistent ev w Hc) as [Ho _].
  cbn [run]. cbn. rewrite Ho. reflexivity.
Qed.

Lemma run_consistent evs w :
  consistent w ->
  outcome (run evs w) = Returned tt /\ consistent (world (run evs w)).
Proof.
  revert w. induction evs as [| ev evs IH]; intros w Hc.
  - cbn. auto.
  - rewrite run_cons by exact Hc. cbn.
    apply IH. apply dispatch_consistent; exact Hc.
Qed.

Lemma load_consistent vw vh : consistent (load vw vh).
Proof. exact (consistent_disabledWorld _ _ _ _ _ _ _). Qed.

Lemma try_catch_tame {A} (body : Js A) handler w :
  tame w (body w) -> tame w (try_catch body handler w).
Proof.
  intros ([a Ha] & Hc & Hy & Hp). unfold tame. cbn. rewrite Ha.
  repeat split; eauto.
Qed.

Lemma registerMessageListener_tame w :
  consistent w -> tame w (registerMessageListener w).
Proof. intros Hc. shape w Hc; tame_shape. Qed.

Lemma init_tame reply w : consistent w -> tame w (init reply w).
Proof.
  intros Hc. unfold init.
  apply bind_tame; [| intros _ w' Hc'; apply registerMessageListener_tame, Hc'].
  destruct reply as [result | e].
  - apply try_catch_tame. cbn -[enable].
    destruct (strict_true (focusRulerEnabled result)).
    + destruct (enable_tame
        {| height := nullish_or (rulerHeight result) (JNum DEFAULT_HEIGHT);
           opacity := nullish_or (dimOpacity result) (JNum DEFAULT_OPACITY) |}
        w Hc) as ([[] Ho] & Hc' & Hy & Hp).
      unfold tame. cbn -[enable]. repeat split; eauto.
    + unfold tame; cbn; repeat split; eauto.
  - unfold tame; cbn; repeat split; eauto.
Qed.

Lemma init_consistent reply w :
  consistent w ->
  outcome (init reply w) = Returned tt /\
  consistent (world (init reply w)) /\
  currentY (ruler (world (init reply w))) = currentY (ruler w).
Proof.
  intros Hc. destruct (init_tame reply w Hc) as ([[] Ho] & Hc' & Hy & _). auto.
Qed.

Lemma boot_consistent vw vh reply : consistent (boot vw vh reply).
Proof. apply init_consistent, load_consistent. Qed.

Lemma session_consistent vw vh reply evs : consistent (session vw vh reply evs).
Proof. apply run_consistent, boot_consistent. Qed.

(** ** Facts about styles and numbers *)

(** Two property texts whose numbers [PrimFloat.eqb] tells apart differ. *)
Lemma text_neq (c d : option CssText) :
  PrimFloat.eqb (numberOf c) (numberOf d) = false ->
  PrimFloat.eqb (numberOf d) (numberOf d) = true ->
  c <> d.
Proof. intros Hcd Hdd Heq. rewrite Heq in Hcd. congruence. Qed.

Lemma initialStyle_height s cur vw vh :
  initialStyle s cur vw vh !! "--ruler-height" =
  Some (Px (default_param (height s) (JNum DEFAULT_HEIGHT))).
Proof. reflexivity. Qed.

Lemma initialStyle_opacity s cur vw vh :
  initialStyle s cur vw vh !! "--dim-opacity" =
  Some (Plain (default_param (opacity s) (JNum DEFAULT_OPACITY))).
Proof. reflexivity. Qed.

Lemma initialStyle_y s cur vw vh :
  initialStyle s cur vw vh !! "--ruler-y" = Some (Px (JNum cur)).
Proof. reflexivity. Qed.

(** * Settings are not kept while disabled *)

(** C1, as stated, fails: thickness 60 and intensity 0.3 given while the
    ruler is disabled (or before a disable) are gone at the next enable that
    carries no settings; the surface is created with 40 and 0.75. *)
Lemma settings_lost_while_disabled :
  surfaceVar "--ruler-height" staged_then_toggled = Some (Px (JNum 40)) /\
  surfaceVar "--dim-opacity" staged_then_toggled = Some (Plain (JNum 0.75)) /\
  surfaceVar "--ruler-height" staged_then_toggled <> Some (Px (JNum 60)) /\
  surfaceVar "--dim-opacity" staged_then_toggled <> Some (Plain (JNum 0.3)) /\
  surfaceVar "--ruler-height" cycled_without_settings = Some (Px (JNum 40)) /\
  surfaceVar "--dim-opacity" cycled_without_settings = Some (Plain (JNum 0.75)).
Proof.
  repeat split; try (vm_compute; reflexivity);
    apply text_neq; vm_compute; reflexivity.
Qed.

(** C1, amended: the script keeps no thickness or intensity of its own.
    [applySettings] on a disabled ruler changes nothing and writes nothing;
    and whatever was applied before, after [disable] the next [enable s']
    creates the surface with the fields of [s'], each absent one taking its
    default (40, 0.75). *)
Theorem settings_come_from_enable w s s' :
  consistent w ->
  (isEnabled (ruler w) = false -> applySettings s w = mkRun (Returned tt) w []) /\
  let w' := world (enable s' (world (disable (world (applySettings s w))))) in
  isEnabled (ruler w') = true /\
  surfaceVar "--ruler-height" w' =
    Some (Px (default_param (height s') (JNum DEFAULT_HEIGHT))) /\
  surfaceVar "--dim-opacity" w' =
    Some (Plain (default_param (opacity s') (JNum DEFAULT_OPACITY))).
Proof.
  intros Hc. split.
  - intros He. shape w Hc; [discriminate |].
    apply applySettings_no_overlay. reflexivity.
  - shape w Hc.
    + rewrite applySettings_enabledWorld. cbn [world].
      rewrite disable_enabledWorld. cbn [world].
      rewrite enable_disabledWorld. cbn [world].
      repeat split.
    + rewrite applySettings_no_overlay by reflexivity. cbn [world].
      rewrite disable_disabled by reflexivity. cbn [world].
      rewrite enable_disabledWorld. cbn [world].
      repeat split.
Qed.

Lemma settings_come_from_enable_witness :
  consistent staged_then_toggled /\
  surfaceVar "--ruler-height"
    (world (enable no_settings (world (disable (world (applySettings
       {| height := JNum 60; opacity := JNum 0.3 |} staged_then_toggled)))))) =
  Some (Px (JNum 40)).
Proof.
  split.
  - apply session_consistent.
  - destruct (settings_come_from_enable staged_then_toggled
                {| height := JNum 60; opacity := JNum 0.3 |} no_settings
                (session_consistent _ _ _ _))
      as (_ & _ & H & _).
    exact H.
Defined.

(** * Last sample wins, one commit per frame *)

Lemma pendingAfter_last ys y pend : pendingAfter (ys ++ [y]) pend = Some y.
Proof. unfold pendingAfter. rewrite fold_left_app. reflexivity. Qed.

Lemma run_eta {A} (r : Run A) : mkRun (outcome r) (world r) ([] ++ effects r) = r.
Proof. destruct r; reflexivity. Qed.

Lemma run_mousemoves ys rest h id st pend cur vw vh nn nf ml :
  run (map MouseMove ys ++ rest) (enabledWorld h id st pend cur vw vh nn nf ml) =
  run rest (enabledWorld h id st (pendingAfter ys pend) cur vw vh nn nf ml).
Proof.
  revert pend. induction ys as [| y ys IH]; intros pend.
  - reflexivity.
  - cbn [map app]. rewrite run_cons by apply consistent_enabledWorld.
    rewrite mousemove_enabledWorld. cbn [world effects].
    rewrite IH. apply run_eta.
Qed.

(** C2: pointer samples [ys ++ [y]] arrive while the ruler is enabled, then a
    frame fires.  The samples themselves write nothing; the frame makes
    exactly one write to the surface, the position [y]; the committed
    position is [y] and the pending slot is empty again. *)
Theorem last_sample_wins w ys y :
  consistent w -> isEnabled (ruler w) = true ->
  effects (run (map MouseMove (ys ++ [y])) w) = [] /\
  let r := run (map MouseMove (ys ++ [y]) ++ [AnimationFrame]) w in
  outcome r = Returned tt /\
  surfaceWrites (effects r) = [SetProperty "--ruler-y" (Px (JNum y))] /\
  currentY (ruler (world r)) = y /\
  pendingY (ruler (world r)) = None /\
  surfaceVar "--ruler-y" (world r) = Some (Px (JNum y)).
Proof.
  intros Hc He. shape w Hc; [| discriminate]. split.
  - rewrite <- (app_nil_r (map MouseMove (ys ++ [y]))).
    rewrite run_mousemoves. reflexivity.
  - rewrite run_mousemoves, pendingAfter_last.
    rewrite run_cons by apply consistent_enabledWorld.
    rewrite frame_enabledWorld_pending. cbn.
    repeat split. apply lookup_insert_eq.
Qed.

Lemma last_sample_wins_witness :
  currentY (ruler (world (run (map MouseMove ([10; 50] ++ [120]) ++ [AnimationFrame])
                              staged_then_toggled))) = 120.
Proof.
  destruct (last_sample_wins staged_then_toggled [10; 50] 120
              (session_consistent _ _ _ _) eq_refl)
    as (_ & _ & _ & H & _).
  exact H.
Defined.

(** * Disable cancels *)

Lemma onMessage_disabledWorld_quiet m pend cur vw vh nn nf ml :
  enabling (Incoming m) = false ->
  exists es,
    onMessage m (disabledWorld pend cur vw vh nn nf ml) =
    mkRun (Returned true) (disabledWorld pend cur vw vh nn nf ml) es /\
    forallb isResponse es = true.
Proof.
  intros Hq. destruct m as [e s | s | | s | t]; cbn in Hq.
  - eexists. unfold onMessage. rewrite Hq. js_eval. split; reflexivity.
  - eexists. unfold onMessage.
    cbn -[applySettings]. rewrite applySettings_no_overlay by reflexivity.
    cbn. split; reflexivity.
  - eexists. js_eval. split; reflexivity.
  - eexists. unfold onMessage. rewrite Hq. js_eval. split; reflexivity.
  - eexists. js_eval. split; reflexivity.
Qed.

Lemma deliver_disabledWorld_quiet n m pend cur vw vh nn nf ml :
  enabling (Incoming m) = false ->
  exists es,
    deliver n m (disabledWorld pend cur vw vh nn nf ml) =
    mkRun (Returned tt) (disabledWorld pend cur vw vh nn nf ml) es /\
    forallb isResponse es = true.
Proof.
  intros Hq. induction n as [| n (es & IH & Hes)].
  - exists []. split; reflexivity.
  - destruct (onMessage_disabledWorld_quiet m pend cur vw vh nn nf ml Hq)
      as (es1 & H1 & Hes1).
    exists (es1 ++ es)%list. cbn [deliver]. cbn -[onMessage deliver disabledWorld].
    rewrite H1. cbn -[deliver disabledWorld]. rewrite IH. cbn -[disabledWorld].
    split; [reflexivity |]. rewrite forallb_app, Hes1, Hes. reflexivity.
Qed.

Lemma dispatch_disabledWorld_quiet ev pend cur vw vh nn nf ml :
  enabling ev = false ->
  exists vw' vh' es,
    dispatch ev (disabledWorld pend cur vw vh nn nf ml) =
    mkRun (Returned tt) (disabledWorld pend cur vw' vh' nn nf ml) es /\
    forallb isResponse es = true.
Proof.
  intros Hq. destruct ev as [y | vw' vh' | | m].
  - exists vw, vh, []. split; reflexivity.
  - exists vw', vh', []. split; reflexivity.
  - exists vw, vh, []. split; reflexivity.
  - destruct (deliver_disabledWorld_quiet ml m pend cur vw vh nn nf ml Hq)
      as (es & H & Hes).
    exists vw, vh, es. split; [| exact Hes].
    unfold dispatch. cbn -[deliver disabledWorld].
    replace (onMessageListeners (page (disabledWorld pend cur vw vh nn nf ml)))
      with ml by reflexivity.
    rewrite H. reflexivity.
Qed.

Lemma run_disabledWorld_quiet evs pend cur vw vh nn nf ml :
  forallb (fun ev => negb (enabling ev)) evs = true ->
  exists vw' vh' es,
    run evs (disabledWorld pend cur vw vh nn nf ml) =
    mkRun (Returned tt) (disabledWorld pend cur vw' vh' nn nf ml) es /\
    forallb isResponse es = true.
Proof.
  revert vw vh. induction evs as [| ev evs IH]; intros vw vh Hq.
  - exists vw, vh, []. split; reflexivity.
  - cbn [forallb] in Hq. apply andb_prop in Hq as [Hev Hq].
    apply negb_true_iff in Hev.
    destruct (dispatch_disabledWorld_quiet ev pend cur vw vh nn nf ml Hev)
      as (vw1 & vh1 & es1 & H1 & Hes1).
    destruct (IH vw1 vh1 Hq) as (vw2 & vh2 & es2 & H2 & Hes2).
    exists vw2, vh2, (es1 ++ es2)%list.
    rewrite run_cons by apply consistent_disabledWorld.
    rewrite H1. cbn [world effects]. rewrite H2. cbn [outcome world effects].
    split; [reflexivity |]. rewrite forallb_app, Hes1, Hes2. reflexivity.
Qed.

(** A callback that the host still calls after the flag went off (whatever
    handles its list holds) neither writes nor reschedules. *)
Lemma stale_callbacks_do_nothing handles v :
  isEnabled (ruler v) = false ->
  outcome (run_frame_callbacks handles v) = Returned tt /\
  ruler (world (run_frame_callbacks handles v)) = ruler v /\
  effects (run_frame_callbacks handles v) = [].
Proof.
  revert v. induction handles as [| h rest IH]; intros v He.
  - repeat split.
  - cbn [run_frame_callbacks]. cbn -[run_frame_callbacks loop].
    destruct (existsb (Nat.eqb h) (frameCallbacks (page v))).
    + cbn -[run_frame_callbacks loop].
      rewrite loop_disabled by exact He. cbn -[run_frame_callbacks].
      match goal with |- context [run_frame_callbacks rest ?v'] =>
        destruct (IH v' He) as (Ho & Hr & Hes) end.
      rewrite Ho, Hr, Hes. repeat split.
    + cbn -[run_frame_callbacks].
      destruct (IH v He) as (Ho & Hr & Hes).
      rewrite Ho, Hr, Hes. repeat split.
Qed.

(** C3: after [disable], whatever the host still delivers (frames, pointer
    and resize events, messages that do not switch the ruler on) leaves the
    module variables as [disable] left them, writes nothing to a surface and
    requests no frame: the callback and the listeners are gone.  And a frame
    callback that would still be called finds [isEnabled] off and returns at
    once, without a write and without rescheduling. *)
Theorem disable_cancels w evs :
  consistent w ->
  forallb (fun ev => negb (enabling ev)) evs = true ->
  let w' := world (disable w) in
  let r := run evs w' in
  frameCallbacks (page w') = [] /\ windowListeners (page w') = [] /\
  outcome r = Returned tt /\
  ruler (world r) = ruler w' /\
  forallb isResponse (effects r) = true /\
  frameCallbacks (page (world r)) = [] /\
  windowListeners (page (world r)) = [] /\
  (forall v, isEnabled (ruler v) = false ->
     loop v = mkRun (Returned tt) v [] /\
     ruler (world (dispatch AnimationFrame v)) = ruler v /\
     effects (dispatch AnimationFrame v) = []).
Proof.
  intros Hc Hq.
  assert (Hstale : forall v, isEnabled (ruler v) = false ->
     loop v = mkRun (Returned tt) v [] /\
     ruler (world (dispatch AnimationFrame v)) = ruler v /\
     effects (dispatch AnimationFrame v) = []).
  { intros v He. split; [apply loop_disabled, He |].
    destruct (stale_callbacks_do_nothing (frameCallbacks (page v)) v He)
      as (Ho & Hr & Hes).
    unfold dispatch. cbn -[run_frame_callbacks]. rewrite Hr, Hes. split; reflexivity. }
  shape w Hc.
  - rewrite disable_enabledWorld. cbn [world].
    destruct (run_disabledWorld_quiet evs pend cur vw vh nn nf ml Hq)
      as (vw' & vh' & es & H & Hes).
    rewrite H. cbn. repeat split; try exact Hes; apply Hstale; assumption.
  - rewrite disable_disabled by reflexivity. cbn [world].
    destruct (run_disabledWorld_quiet evs pend cur vw vh nn nf ml Hq)
      as (vw' & vh' & es & H & Hes).
    rewrite H. cbn. repeat split; try exact Hes; apply Hstale; assumption.
Qed.

Lemma disable_cancels_witness :
  ruler (world (run [AnimationFrame; MouseMove 300; Resize 1024 768;
                       Incoming FOCUS_RULER_GET_STATE; AnimationFrame]
                      (world (disable staged_then_toggled)))) =
  ruler (world (disable staged_then_toggled)).
Proof.
  destruct (disable_cancels staged_then_toggled
              [AnimationFrame; MouseMove 300; Resize 1024 768;
               Incoming FOCUS_RULER_GET_STATE; AnimationFrame]
              (session_consistent _ _ _ _) eq_refl)
    as (_ & _ & _ & H & _).
  exact H.
Defined.

(** * Starting the loop twice *)

Ltac style_eq :=
  let k := fresh "k" in
  apply map_eq; intros k; rewrite ?lookup_insert;
  repeat case_decide; subst; try reflexivity; try congruence.

Lemma styled_idem s st : styled s (styled s st) = styled s st.
Proof.
  destruct s as [hv ov]. unfold styled; cbn.
  destruct hv, ov; try reflexivity; style_eq.
Qed.

Lemma styled_initialStyle s cur vw vh :
  styled s (initialStyle s cur vw vh) = initialStyle s cur vw vh.
Proof.
  destruct s as [hv ov]. unfold styled, initialStyle; cbn.
  destruct hv, ov; try reflexivity; cbn; style_eq.
Qed.

Lemma settingsWrites_only_properties s :
  forallb isSetProperty (settingsWrites s) = true /\
  List.filter isRequestFrame (settingsWrites s) = [].
Proof. destruct s as [hv ov]. destruct hv, ov; split; reflexivity. Qed.

(** C4: the frame loop is started through [enable] only ([startRaf] is
    private to the script and called from nowhere else), and starting it
    while it runs is a no-op: [enable] on an enabled ruler leaves the host
    page (its callback list included) and [rafId] as they are and requests
    no frame.  So in every state a page context reaches, at most one frame
    callback of the script is pending, and one is pending exactly when the
    ruler is enabled. *)
Theorem start_guarded_by_enable vw vh reply evs s :
  let w := session vw vh reply evs in
  (length (frameCallbacks (page w)) <= 1)%nat /\
  frameScheduled w = isEnabled (ruler w) /\
  (isEnabled (ruler w) = true ->
   page (world (enable s w)) = page w /\
   rafId (ruler (world (enable s w))) = rafId (ruler w) /\
   List.filter isRequestFrame (effects (enable s w)) = []).
Proof.
  intros w. pose proof (session_consistent vw vh reply evs) as Hc.
  fold w in Hc. clearbody w. shape w Hc.
  - split; [cbn; lia |]. split; [reflexivity |].
    intros _. rewrite enable_enabledWorld. cbn.
    repeat split. apply settingsWrites_only_properties.
  - split; [cbn; lia |]. split; [reflexivity | discriminate].
Qed.

Lemma start_guarded_by_enable_witness :
  page (world (enable {| height := JNum 60; opacity := JUndefined |}
                      staged_then_toggled)) = page staged_then_toggled.
Proof.
  exact (proj1 (proj2 (proj2 (start_guarded_by_enable 1280 800
    (StorageResult (mkStored (JBool false) JUndefined JUndefined))
    [Incoming (FOCUS_RULER_UPDATE_SETTINGS
                 (Some {| height := JNum 60; opacity := JNum 0.3 |}));
     Incoming (FOCUS_RULER_TOGGLE (JBool true) None)]
    {| height := JNum 60; opacity := JUndefined |})) eq_refl)).
Defined.

(** * Idempotent lifecycle *)

(** C5: [enable] on an enabled ruler only applies the settings to the
    overlay it already has: host page, host element, callback handle and
    positions stay, and the only effects are the property writes of the
    given fields.  Enabling twice with the same settings gives the same world
    as enabling once.  [disable] on a disabled ruler returns normally with the
    world unchanged and no effect. *)
Theorem lifecycle_idempotent w s :
  consistent w ->
  (isEnabled (ruler w) = true ->
   let r := enable s w in
   outcome r = Returned tt /\
   page (world r) = page w /\
   shadowHost (ruler (world r)) = shadowHost (ruler w) /\
   shadowRoot (ruler (world r)) = shadowRoot (ruler w) /\
   rafId (ruler (world r)) = rafId (ruler w) /\
   overlay (ruler (world r)) = styled s <$> overlay (ruler w) /\
   effects r = settingsWrites s /\
   forallb isSetProperty (effects r) = true) /\
  world (enable s (world (enable s w))) = world (enable s w) /\
  (isEnabled (ruler w) = false -> disable w = mkRun (Returned tt) w []).
Proof.
  intros Hc. split; [| split].
  - intros He. shape w Hc; [| discriminate].
    rewrite enable_enabledWorld. cbn.
    repeat split. apply settingsWrites_only_properties.
  - shape w Hc.
    + rewrite !enable_enabledWorld. cbn [world].
      rewrite enable_enabledWorld. cbn [world]. rewrite styled_idem. reflexivity.
    + rewrite !enable_disabledWorld. cbn [world].
      rewrite enable_enabledWorld. cbn [world].
      rewrite styled_initialStyle. reflexivity.
  - apply disable_disabled.
Qed.

Lemma lifecycle_idempotent_witness :
  world (enable {| height := JNum 40; opacity := JNum 0.75 |}
           (world (enable {| height := JNum 40; opacity := JNum 0.75 |}
                          (load 1280 800)))) =
  world (enable {| height := JNum 40; opacity := JNum 0.75 |} (load 1280 800)) /\
  disable (load 1280 800) = mkRun (Returned tt) (load 1280 800) [].
Proof.
  destruct (lifecycle_idempotent (load 1280 800)
              {| height := JNum 40; opacity := JNum 0.75 |}
              (load_consistent 1280 800)) as (_ & H2 & H3).
  split; [exact H2 | exact (H3 eq_refl)].
Defined.

(** * Surface, listeners and loop go together *)

Lemma consistent_observed w :
  consistent w ->
  surfaceExists w = isEnabled (ruler w) /\
  listenerAttached OnMouseMove w = isEnabled (ruler w) /\
  listenerAttached OnResize w = isEnabled (ruler w) /\
  frameScheduled w = isEnabled (ruler w).
Proof.
  intros Hc. shape w Hc; unfold surfaceExists, listenerAttached, frameScheduled;
    js_eval; repeat split.
Qed.

(** C6: in a consistent world the surface exists exactly when [isEnabled]
    holds, and so do each of the two listeners and the pending frame
    callback; [enable], [disable], [applySettings], the message handler and
    every host event lead from a consistent world to a consistent world. *)
Theorem wiring_invariant w :
  consistent w ->
  (surfaceExists w = isEnabled (ruler w) /\
   listenerAttached OnMouseMove w = isEnabled (ruler w) /\
   listenerAttached OnResize w = isEnabled (ruler w) /\
   frameScheduled w = isEnabled (ruler w)) /\
  (forall s, consistent (world (enable s w))) /\
  consistent (world (disable w)) /\
  (forall s, consistent (world (applySettings s w))) /\
  (forall m, consistent (world (onMessage m w))) /\
  (forall ev, consistent (world (dispatch ev w))) /\
  (forall evs, consistent (world (run evs w))).
Proof.
  intros Hc. split; [apply consistent_observed, Hc |].
  split; [intros s; apply (enable_tame s w Hc) |].
  split; [apply (disable_tame w Hc) |].
  split; [intros s; apply (applySettings_tame s w Hc) |].
  split; [intros m; apply (onMessage_tame m w Hc) |].
  split; [intros ev; apply (dispatch_consistent ev w Hc) |].
  intros evs; apply (run_consistent evs w Hc).
Qed.

Lemma wiring_invariant_witness :
  surfaceExists (load 1280 800) = isEnabled (ruler (load 1280 800)) /\
  consistent (world (enable no_settings (load 1280 800))).
Proof.
  destruct (wiring_invariant (load 1280 800) (load_consistent 1280 800))
    as ((H1 & _) & H2 & _).
  split; [exact H1 | exact (H2 no_settings)].
Defined.

(** * Storage failure at start-up *)

(** C7: when the storage read fails, [init] returns normally; it logs the
    failure and registers the message listener, and nothing else happens:
    the world is the freshly loaded one with one message listener, the ruler
    is disabled with no surface, no window listener and no frame callback.
    A later toggle-on message enables it. *)
Theorem init_survives_storage_failure vw vh e :
  let r := init (StorageFailure e) (load vw vh) in
  outcome r = Returned tt /\
  effects r = [ConsoleDebug ["[AccessiLens] focus-ruler storage read failed:"; e];
               AddMessageListener] /\
  world r = with_page (set_onMessageListeners 1) (load vw vh) /\
  isEnabled (ruler (world r)) = false /\
  surfaceExists (world r) = false /\
  windowListeners (page (world r)) = [] /\
  frameCallbacks (page (world r)) = [] /\
  consistent (world r) /\
  (forall s,
     let w' := world (dispatch (Incoming (FOCUS_RULER_TOGGLE (JBool true) s)) (world r)) in
     isEnabled (ruler w') = true /\ surfaceExists w' = true).
Proof.
  cbv zeta. split; [reflexivity |]. split; [reflexivity |].
  split; [reflexivity |]. split; [reflexivity |]. split; [reflexivity |].
  split; [reflexivity |]. split; [reflexivity |].
  split; [exact (consistent_disabledWorld _ _ _ _ _ _ _) |].
  intros s. split; reflexivity.
Qed.

(** * Re-applying the stored state *)

(** C8: on a disabled ruler, the reapply message whose snapshot has the
    ruler on with height 60 and opacity 0.3 leaves it enabled with a surface
    of thickness 60 and intensity 0.3, and the state query then reports
    enabled.  A snapshot whose flag is falsy (or a missing snapshot) makes
    the handler call [disable]. *)
Theorem reapply_state_applies w :
  consistent w -> isEnabled (ruler w) = false ->
  (let r := onMessage (REAPPLY_STATE (Some (mkStored (JBool true) (JNum 60) (JNum 0.3)))) w in
   outcome r = Returned true /\
   isEnabled (ruler (world r)) = true /\
   surfaceExists (world r) = true /\
   surfaceVar "--ruler-height" (world r) = Some (Px (JNum 60)) /\
   surfaceVar "--dim-opacity" (world r) = Some (Plain (JNum 0.3)) /\
   effects (onMessage FOCUS_RULER_GET_STATE (world r)) =
     [SendResponse (StateReport true (currentY (ruler w)))]) /\
  (forall st v,
     truthy (focusRulerEnabled (default (mkStored JUndefined JUndefined JUndefined) st))
       = false ->
     onMessage (REAPPLY_STATE st) v = ((disable >> sendResponse Ack) >> ret true) v).
Proof.
  intros Hc He. split.
  - shape w Hc; [discriminate |].
    unfold surfaceExists, surfaceVar. js_eval. repeat split.
  - intros st v Hf. unfold onMessage. rewrite Hf. reflexivity.
Qed.

Lemma reapply_state_applies_witness :
  surfaceVar "--ruler-height"
    (world (onMessage
              (REAPPLY_STATE (Some (mkStored (JBool true) (JNum 60) (JNum 0.3))))
              (load 1280 800))) = Some (Px (JNum 60)).
Proof.
  destruct (reapply_state_applies (load 1280 800) (load_consistent 1280 800) eq_refl)
    as ((_ & _ & _ & H & _) & _).
  exact H.
Defined.

(** * The initial position *)



(** * A sample pending at disable is committed after the next enable *)

(** C10: a pointer sample [y] arrives on an enabled ruler and [disable] runs
    before any frame.  [disable] leaves [pendingY] and [currentY] alone, and
    so does whatever the host delivers while the ruler is off.  The next
    [enable] draws the surface at the old committed position, and the first
    frame after it commits the pre-disable sample [y]. *)
Theorem stale_sample_survives_disable w y evs s :
  consistent w -> isEnabled (ruler w) = true ->
  forallb (fun ev => negb (enabling ev)) evs = true ->
  let w1 := world (dispatch (MouseMove y) w) in
  let w2 := world (disable w1) in
  let w3 := world (run evs w2) in
  let w4 := world (enable s w3) in
  let r5 := dispatch AnimationFrame w4 in
  pendingY (ruler w2) = pendingY (ruler w1) /\
  currentY (ruler w2) = currentY (ruler w1) /\
  pendingY (ruler w3) = Some y /\
  currentY (ruler w3) = currentY (ruler w) /\
  surfaceVar "--ruler-y" w4 = Some (Px (JNum (currentY (ruler w)))) /\
  surfaceWrites (effects r5) = [SetProperty "--ruler-y" (Px (JNum y))] /\
  currentY (ruler (world r5)) = y /\
  pendingY (ruler (world r5)) = None /\
  surfaceVar "--ruler-y" (world r5) = Some (Px (JNum y)).
Proof.
  intros Hc He Hq. shape w Hc; [| discriminate].
  rewrite mousemove_enabledWorld. cbn [world].
  rewrite disable_enabledWorld. cbn [world].
  destruct (run_disabledWorld_quiet evs (Some y) cur vw vh nn nf ml Hq)
    as (vw' & vh' & es & H & _).
  rewrite H. cbn [world].
  rewrite enable_disabledWorld. cbn [world].
  rewrite frame_enabledWorld_pending. cbn.
  repeat split.
Qed.

Lemma stale_sample_survives_disable_witness :
  currentY (ruler (world (dispatch AnimationFrame
    (world (enable no_settings
      (world (run [AnimationFrame; MouseMove 700]
        (world (disable (world (dispatch (MouseMove 120) staged_then_toggled))))))))))) = 120.
Proof.
  destruct (stale_sample_survives_disable staged_then_toggled 120
              [AnimationFrame; MouseMove 700] no_settings
              (session_consistent _ _ _ _) eq_refl eq_refl)
    as (_ & _ & _ & _ & _ & _ & H & _).
  exact H.
Defined.


(** * Further properties of the content script *)

(** ** Settings merge *)

(** X1: A settings update on a live overlay rewrites exactly the properties
    whose fields are present ([null] counts as present), and nothing else of
    the style, the positions or the host page. *)
Theorem applySettings_merges w s name :
  consistent w -> isEnabled (ruler w) = true ->
  let w' := world (applySettings s w) in
  surfaceVar "--ruler-height" w' =
    match height s with
    | JUndefined => surfaceVar "--ruler-height" w
    | v => Some (Px v)
    end /\
  surfaceVar "--dim-opacity" w' =
    match opacity s with
    | JUndefined => surfaceVar "--dim-opacity" w
    | v => Some (Plain v)
    end /\
  (name <> "--ruler-height" -> name <> "--dim-opacity" ->
   surfaceVar name w' = surfaceVar name w) /\
  page w' = page w /\
  currentY (ruler w') = currentY (ruler w) /\
  pendingY (ruler w') = pendingY (ruler w).
Proof.
  intros Hc He. shape w Hc; [| discriminate].
  rewrite applySettings_enabledWorld. cbn [world].
  destruct s as [hv ov]. unfold surfaceVar, styled. cbn.
  split; [| split; [| split; [| repeat split]]].
  - destruct hv, ov; rewrite ?lookup_insert; repeat case_decide; congruence.
  - destruct hv, ov; rewrite ?lookup_insert; repeat case_decide; congruence.
  - intros H1 H2. destruct hv, ov; rewrite ?lookup_insert;
      repeat case_decide; congruence.
Qed.

Lemma applySettings_merges_witness :
  surfaceVar "--ruler-height"
    (world (applySettings {| height := JUndefined; opacity := JNum 0.5 |}
              (enabledWorld 0 1 (initialStyle no_settings 400 1280 800)
                 None 400 1280 800 1 2 1))) =
  Some (Px (JNum 40)).
Proof.
  destruct (applySettings_merges
              (enabledWorld 0 1 (initialStyle no_settings 400 1280 800)
                 None 400 1280 800 1 2 1)
              {| height := JUndefined; opacity := JNum 0.5 |} "--vw"
              (consistent_enabledWorld _ _ _ _ _ _ _ _ _ _) eq_refl) as (H & _).
  rewrite H. reflexivity.
Defined.

(** ** The overlay shows the state *)

Lemma shows_initialStyle s cur vw vh : shows (initialStyle s cur vw vh) cur vw vh.
Proof.
  destruct s as [hv ov]. unfold shows. repeat split.
  - eexists; split; [reflexivity |]. destruct hv; discriminate.
  - eexists; split; [reflexivity |]. destruct ov; discriminate.
Qed.

Lemma shows_styled s st cur vw vh :
  shows st cur vw vh -> shows (styled s st) cur vw vh.
Proof.
  intros (Hy & Hw & Hh & (t & Ht & Htn) & (o & Ho & Hon)).
  destruct s as [hv ov]. unfold shows, styled. cbn.
  split; [| split; [| split; [| split]]].
  - destruct hv, ov; rewrite ?lookup_insert; repeat case_decide; congruence.
  - destruct hv, ov; rewrite ?lookup_insert; repeat case_decide; congruence.
  - destruct hv, ov; rewrite ?lookup_insert; repeat case_decide; congruence.
  - destruct hv, ov; rewrite ?lookup_insert; repeat case_decide;
      try congruence; eexists; (split; [eassumption || reflexivity | congruence]).
  - destruct hv, ov; rewrite ?lookup_insert; repeat case_decide;
      try congruence; eexists; (split; [eassumption || reflexivity | congruence]).
Qed.

Lemma shows_commit y st cur vw vh :
  shows st cur vw vh -> shows (<["--ruler-y" := Px (JNum y)]> st) y vw vh.
Proof.
  intros (Hy & Hw & Hh & (t & Ht & Htn) & (o & Ho & Hon)). unfold shows.
  rewrite ?lookup_insert. repeat case_decide; try congruence.
  repeat split; eauto.
Qed.

Lemma shows_resize vw' vh' st cur vw vh :
  shows st cur vw vh ->
  shows (<["--vh" := Px (JNum vh')]> (<["--vw" := Px (JNum vw')]> st)) cur vw' vh'.
Proof.
  intros (Hy & Hw & Hh & (t & Ht & Htn) & (o & Ho & Hon)). unfold shows.
  rewrite ?lookup_insert. repeat case_decide; try congruence.
  repeat split; eauto.
Qed.

Lemma enable_rendered s w :
  consistent w -> rendered w -> rendered (world (enable s w)).
Proof.
  intros Hc Hr. shape w Hc.
  - rewrite enable_enabledWorld. apply shows_styled, Hr.
  - rewrite enable_disabledWorld. apply shows_initialStyle.
Qed.

Lemma disable_rendered w : consistent w -> rendered (world (disable w)).
Proof.
  intros Hc. shape w Hc.
  - rewrite disable_enabledWorld. exact I.
  - rewrite disable_disabled by reflexivity. exact I.
Qed.

Lemma applySettings_rendered s w :
  consistent w -> rendered w -> rendered (world (applySettings s w)).
Proof.
  intros Hc Hr. shape w Hc.
  - rewrite applySettings_enabledWorld. apply shows_styled, Hr.
  - rewrite applySettings_no_overlay by reflexivity. exact I.
Qed.

Lemma onMessage_world m w :
  consistent w ->
  world (onMessage m w) =
  match m with
  | FOCUS_RULER_TOGGLE e s =>
      if truthy e then world (enable (optional_settings s) w) else world (disable w)
  | FOCUS_RULER_UPDATE_SETTINGS s => world (applySettings (default no_settings s) w)
  | REAPPLY_STATE st =>
      let s := default (mkStored JUndefined JUndefined JUndefined) st in
      if truthy (focusRulerEnabled s)
      then world (enable {| height := rulerHeight s; opacity := dimOpacity s |} w)
      else world (disable w)
  | _ => w
  end.
Proof.
  intros Hc. unfold onMessage.
  destruct m as [e s | s | | st | t]; try reflexivity.
  - destruct (truthy e).
    + destruct (enable_tame (optional_settings s) w Hc) as ([[] Ho] & _).
      cbn -[enable]. rewrite Ho. reflexivity.
    + destruct (disable_tame w Hc) as ([[] Ho] & _).
      cbn -[disable]. rewrite Ho. reflexivity.
  - destruct (applySettings_tame (default no_settings s) w Hc) as ([[] Ho] & _).
    cbn -[applySettings]. rewrite Ho. reflexivity.
  - cbv zeta. destruct (truthy _).
    + match goal with |- context [enable ?s' w] =>
        destruct (enable_tame s' w Hc) as ([[] Ho] & _) end.
      cbn -[enable]. rewrite Ho. reflexivity.
    + destruct (disable_tame w Hc) as ([[] Ho] & _).
      cbn -[disable]. rewrite Ho. reflexivity.
Qed.

Lemma onMessage_rendered m w :
  consistent w -> rendered w -> rendered (world (onMessage m w)).
Proof.
  intros Hc Hr. rewrite onMessage_world by exact Hc.
  destruct m as [e s | s | | st | t]; try exact Hr.
  - destruct (truthy e); [apply enable_rendered | apply disable_rendered]; assumption.
  - apply applySettings_rendered; assumption.
  - cbv zeta. destruct (truthy _);
      [apply enable_rendered | apply disable_rendered]; assumption.
Qed.

Lemma deliver_rendered n m w :
  consistent w -> rendered w -> rendered (world (deliver n m w)).
Proof.
  revert w. induction n as [| n IH]; intros w Hc Hr.
  - exact Hr.
  - destruct (onMessage_tame m w Hc) as ([a Ho] & Hc' & _).
    cbn [deliver]. cbn -[onMessage deliver]. rewrite Ho. cbn -[onMessage deliver].
    apply IH; [exact Hc' | apply onMessage_rendered; assumption].
Qed.

Lemma dispatch_rendered ev w :
  consistent w -> rendered w -> rendered (world (dispatch ev w)).
Proof.
  intros Hc Hr. destruct ev as [y | vw' vh' | | m].
  - shape w Hc; [rewrite mousemove_enabledWorld | rewrite mousemove_disabledWorld];
      exact Hr.
  - shape w Hc; [rewrite resize_enabledWorld | rewrite resize_disabledWorld].
    + apply shows_resize with (vw := vw) (vh := vh), Hr.
    + exact I.
  - shape w Hc; [| rewrite frame_disabledWorld; exact I].
    destruct pend as [y |].
    + rewrite frame_enabledWorld_pending. apply shows_commit with (cur := cur), Hr.
    + rewrite frame_enabledWorld_idle. exact Hr.
  - apply deliver_rendered; assumption.
Qed.

Lemma run_rendered evs w :
  consistent w -> rendered w -> rendered (world (run evs w)).
Proof.
  revert w. induction evs as [| ev evs IH]; intros w Hc Hr.
  - exact Hr.
  - rewrite run_cons by exact Hc. cbn [world].
    apply IH; [apply dispatch_consistent, Hc | apply dispatch_rendered; assumption].
Qed.

Lemma load_shape vw vh : load vw vh = disabledWorld None (vh / 2) vw vh 0 1 0.
Proof. reflexivity. Qed.

Lemma boot_rendered vw vh reply : rendered (boot vw vh reply).
Proof.
  unfold boot, init. rewrite load_shape.
  destruct reply as [result | e]; [| exact I].
  destruct (strict_true (focusRulerEnabled result)) eqn:Hs.
  - cbn -[enable disabledWorld]. rewrite Hs.
    rewrite enable_disabledWorld. cbn. apply shows_initialStyle.
  - cbn -[enable disabledWorld]. rewrite Hs. exact I.
Qed.

(** X2: In every state a page context reaches with the ruler enabled, the
    overlay shows the committed position that the state query reports and
    the current viewport size, and its thickness and intensity are values
    that were given (or the defaults), never [undefined]. *)
Theorem surface_tracks_state vw vh reply evs :
  let w := session vw vh reply evs in
  isEnabled (ruler w) = true ->
  surfaceVar "--ruler-y" w = Some (Px (JNum (currentY (ruler w)))) /\
  surfaceVar "--vw" w = Some (Px (JNum (innerWidth (page w)))) /\
  surfaceVar "--vh" w = Some (Px (JNum (innerHeight (page w)))) /\
  (exists v, surfaceVar "--ruler-height" w = Some (Px v) /\ v <> JUndefined) /\
  (exists v, surfaceVar "--dim-opacity" w = Some (Plain v) /\ v <> JUndefined).
Proof.
  intros w He.
  pose proof (session_consistent vw vh reply evs) as Hc.
  assert (Hr : rendered w)
    by (apply run_rendered; [apply boot_consistent | apply boot_rendered]).
  fold w in Hc. clearbody w. shape w Hc; [| discriminate]. exact Hr.
Qed.

Lemma surface_tracks_state_witness :
  surfaceVar "--ruler-y"
    (session 1280 800 (StorageFailure "denied")
       [Incoming (FOCUS_RULER_TOGGLE (JBool true) None); MouseMove 120;
        AnimationFrame; Resize 1024 768]) = Some (Px (JNum 120)).
Proof.
  exact (proj1 (surface_tracks_state 1280 800 (StorageFailure "denied")
    [Incoming (FOCUS_RULER_TOGGLE (JBool true) None); MouseMove 120;
     AnimationFrame; Resize 1024 768] eq_refl)).
Defined.

(** ** No leaked listeners, callbacks or nodes *)

Lemma cycles_disabledWorld n s pend cur vw vh nn nf ml :
  exists es,
    cycles n s (disabledWorld pend cur vw vh nn nf ml) =
    mkRun (Returned tt) (disabledWorld pend cur vw vh (n + nn) (n + nf) ml) es /\
    countEffects isAddListener es = (2 * n)%nat /\
    countEffects isRemoveListener es = (2 * n)%nat /\
    countEffects isRequestFrame es = n /\
    countEffects isCancelFrame es = n.
Proof.
  revert nn nf. induction n as [| n IH]; intros nn nf.
  - exists []. repeat split.
  - destruct (IH (S nn) (S nf)) as (es & Hrun & Ha & Hr & Hq & Hc).
    eexists. split.
    + cbn [cycles]. cbn -[enable disable cycles disabledWorld].
      rewrite enable_disabledWorld. cbn -[disable cycles disabledWorld enabledWorld].
      rewrite disable_enabledWorld. cbn -[cycles disabledWorld].
      rewrite Hrun. cbn -[disabledWorld].
      replace (n + S nn)%nat with (S (n + nn)) by lia.
      replace (n + S nf)%nat with (S (n + nf)) by lia.
      reflexivity.
    + unfold countEffects in *. cbn [List.filter isAddListener isRemoveListener
        isRequestFrame isCancelFrame length].
      rewrite Ha, Hr, Hq, Hc. repeat split; lia.
Qed.

(** X3: Switching the ruler on and off [n] times from a disabled state returns
    normally and leaves the world as it was, apart from the two counters of
    the host (node and frame handles): no listener, callback or node is left
    behind, and every listener added and every frame requested is matched by
    a removal and a cancellation. *)
Theorem cycles_leave_no_trace n s w :
  consistent w -> isEnabled (ruler w) = false ->
  let r := cycles n s w in
  outcome r = Returned tt /\
  world r =
    with_page (fun p => set_nextFrameHandle (n + nextFrameHandle p)
                          (set_nextNode (n + nextNode p) p)) w /\
  windowListeners (page (world r)) = [] /\
  frameCallbacks (page (world r)) = [] /\
  document (page (world r)) = [] /\
  countEffects isAddListener (effects r) = (2 * n)%nat /\
  countEffects isRemoveListener (effects r) = (2 * n)%nat /\
  countEffects isRequestFrame (effects r) = n /\
  countEffects isCancelFrame (effects r) = n.
Proof.
  intros Hc He. shape w Hc; [discriminate |].
  destruct (cycles_disabledWorld n s pend cur vw vh nn nf ml)
    as (es & Hrun & Ha & Hr & Hq & Hcn).
  rewrite Hrun. cbn. repeat split; assumption.
Qed.

Lemma cycles_leave_no_trace_witness :
  windowListeners (page (world (cycles 3 no_settings (load 1280 800)))) = [] /\
  countEffects isAddListener (effects (cycles 3 no_settings (load 1280 800))) = 6%nat.
Proof.
  destruct (cycles_leave_no_trace 3 no_settings (load 1280 800)
              (load_consistent 1280 800) eq_refl)
    as (_ & _ & H1 & _ & _ & H2 & _).
  split; [exact H1 | exact H2].
Defined.

(** ** Start-up with a successful storage read *)

Lemma default_after_nullish v d e :
  default_param (nullish_or v (JNum d)) e = nullish_or v (JNum d).
Proof. destruct v; reflexivity. Qed.

(** X4: [init] enables the ruler exactly when the stored flag is the boolean
    [true] (a truthy value such as 1 does not count).  When it does, the
    surface takes the stored thickness and intensity, a missing or [null]
    one being replaced by 40 and 0.75, and is drawn at half the viewport
    height.  When it does not, the only thing [init] does is register the
    message listener. *)
Theorem init_follows_stored_flag vw vh result :
  let r := init (StorageResult result) (load vw vh) in
  outcome r = Returned tt /\
  isEnabled (ruler (world r)) = strict_true (focusRulerEnabled result) /\
  onMessageListeners (page (world r)) = 1%nat /\
  (strict_true (focusRulerEnabled result) = true ->
   surfaceExists (world r) = true /\
   surfaceVar "--ruler-height" (world r) =
     Some (Px (nullish_or (rulerHeight result) (JNum DEFAULT_HEIGHT))) /\
   surfaceVar "--dim-opacity" (world r) =
     Some (Plain (nullish_or (dimOpacity result) (JNum DEFAULT_OPACITY))) /\
   surfaceVar "--ruler-y" (world r) = Some (Px (JNum (vh / 2)))) /\
  (strict_true (focusRulerEnabled result) = false ->
   world r = with_page (set_onMessageListeners 1) (load vw vh) /\
   effects r = [AddMessageListener]).
Proof.
  cbv zeta. unfold init. rewrite load_shape.
  destruct (strict_true (focusRulerEnabled result)) eqn:Hs.
  - cbn -[enable disabledWorld]. rewrite Hs. rewrite enable_disabledWorld.
    unfold surfaceExists, surfaceVar. js_eval.
    repeat split; try discriminate.
    + rewrite initialStyle_height. cbn [height]. f_equal. f_equal.
      apply default_after_nullish.
    + rewrite initialStyle_opacity. cbn [opacity]. f_equal. f_equal.
      apply default_after_nullish.
  - cbn -[enable disabledWorld]. rewrite Hs. cbn.
    repeat split; discriminate.
Qed.

Lemma init_follows_stored_flag_witness :
  surfaceVar "--ruler-height"
    (world (init (StorageResult (mkStored (JBool true) JNull (JNum 0.3)))
                 (load 1280 800))) = Some (Px (JNum 40)) /\
  isEnabled (ruler (world (init (StorageResult (mkStored (JNum 1) JNull JNull))
                                (load 1280 800)))) = false.
Proof.
  split.
  - destruct (init_follows_stored_flag 1280 800 (mkStored (JBool true) JNull (JNum 0.3)))
      as (_ & _ & _ & H & _).
    destruct (H eq_refl) as (_ & H2 & _). exact H2.
  - destruct (init_follows_stored_flag 1280 800 (mkStored (JNum 1) JNull JNull))
      as (_ & H & _).
    exact H.
Defined.

(** ** What the message handler does *)

Lemma enable_observed s w :
  consistent w ->
  isEnabled (ruler (world (enable s w))) = true /\
  surfaceExists (world (enable s w)) = true.
Proof.
  intros Hc. shape w Hc.
  - rewrite enable_enabledWorld. unfold surfaceExists. js_eval. split; reflexivity.
  - rewrite enable_disabledWorld. unfold surfaceExists. js_eval. split; reflexivity.
Qed.

Lemma disable_observed w :
  consistent w ->
  isEnabled (ruler (world (disable w))) = false /\
  surfaceExists (world (disable w)) = false.
Proof.
  intros Hc. shape w Hc.
  - rewrite disable_enabledWorld. split; reflexivity.
  - rewrite disable_disabled by reflexivity. split; reflexivity.
Qed.

(** X5: The toggle and the reapply message set the state, they do not flip it:
    whatever the ruler was, afterwards it is enabled, with a surface,
    exactly when the flag of the message is truthy (so 1 switches it on, and
    0, NaN, [null] or a missing flag switch it off). *)
Theorem switch_messages_set_state w :
  consistent w ->
  (forall e s,
     let w' := world (onMessage (FOCUS_RULER_TOGGLE e s) w) in
     isEnabled (ruler w') = truthy e /\ surfaceExists w' = truthy e) /\
  (forall st,
     let flag := focusRulerEnabled (default (mkStored JUndefined JUndefined JUndefined) st) in
     let w' := world (onMessage (REAPPLY_STATE st) w) in
     isEnabled (ruler w') = truthy flag /\ surfaceExists w' = truthy flag).
Proof.
  intros Hc. split.
  - intros e s. cbv zeta. rewrite onMessage_world by exact Hc.
    destruct (truthy e); [apply enable_observed | apply disable_observed]; exact Hc.
  - intros st. cbv zeta. rewrite onMessage_world by exact Hc. cbv zeta.
    destruct (truthy _); [apply enable_observed | apply disable_observed]; exact Hc.
Qed.

Lemma switch_messages_set_state_witness :
  isEnabled (ruler (world (onMessage (FOCUS_RULER_TOGGLE (JNum 1) None)
                                     (load 1280 800)))) = true /\
  isEnabled (ruler (world (onMessage (REAPPLY_STATE None) staged_then_toggled))) = false.
Proof.
  split.
  - destruct (switch_messages_set_state (load 1280 800) (load_consistent 1280 800))
      as (H & _).
    exact (proj1 (H (JNum 1) None)).
  - destruct (switch_messages_set_state staged_then_toggled
                (session_consistent _ _ _ _)) as (_ & H).
    exact (proj1 (H None)).
Defined.

Lemma settingsWrites_no_response s : List.filter isResponse (settingsWrites s) = [].
Proof. destruct s as [hv ov]. destruct hv, ov; reflexivity. Qed.

Lemma filter_response_app es1 es2 :
  List.filter isResponse (es1 ++ es2) =
  (List.filter isResponse es1 ++ List.filter isResponse es2)%list.
Proof. apply List.filter_app. Qed.

(** A handler branch: an operation, then the response, then [return true]. *)
Lemma answered {A} (op : Js A) (r : Response) w a w' es :
  op w = mkRun (Returned a) w' es ->
  ((op >> sendResponse r) >> ret true) w =
  mkRun (Returned true) w' (es ++ [SendResponse r]).
Proof.
  intros H. unfold bind. rewrite H. cbn. rewrite !app_nil_r. reflexivity.
Qed.

(** X6: The listener always returns [true].  Each of the four messages it knows
    is answered exactly once: the toggle with the flag it carried, unchanged,
    the state query with the enabled flag and the committed position, the
    other two with a bare acknowledgement.  A message of any other type gets
    no response and changes nothing, and neither the state query nor a
    settings update on a disabled ruler changes the world. *)
Theorem messages_answered_once w m :
  consistent w ->
  let r := onMessage m w in
  outcome r = Returned true /\
  List.filter isResponse (effects r) = responseTo m w /\
  match m with
  | FOCUS_RULER_GET_STATE | OTHER_MESSAGE _ => world r = w
  | FOCUS_RULER_UPDATE_SETTINGS _ => isEnabled (ruler w) = false -> world r = w
  | _ => True
  end.
Proof.
  intros Hc. cbv zeta.
  destruct m as [e s | s | | st | t].
  - unfold onMessage, responseTo. destruct (truthy e); cbv iota; shape w Hc.
    + rewrite (answered _ _ _ _ _ _ (enable_enabledWorld _ _ _ _ _ _ _ _ _ _ _)).
      cbn [outcome effects]. rewrite filter_response_app, settingsWrites_no_response.
      repeat split.
    + rewrite (answered _ _ _ _ _ _ (enable_disabledWorld _ _ _ _ _ _ _ _)).
      repeat split.
    + rewrite (answered _ _ _ _ _ _ (disable_enabledWorld _ _ _ _ _ _ _ _ _ _)).
      repeat split.
    + rewrite (answered _ _ _ _ _ _
                (disable_disabled (disabledWorld pend cur vw vh nn nf ml) eq_refl)).
      repeat split.
  - unfold onMessage, responseTo. shape w Hc.
    + rewrite (answered _ _ _ _ _ _ (applySettings_enabledWorld _ _ _ _ _ _ _ _ _ _ _)).
      cbn [outcome effects]. rewrite filter_response_app, settingsWrites_no_response.
      repeat split. discriminate.
    + rewrite (answered _ _ _ _ _ _
                (applySettings_no_overlay _ (disabledWorld pend cur vw vh nn nf ml) eq_refl)).
      repeat split.
  - repeat split.
  - unfold onMessage, responseTo. cbv zeta. destruct (truthy _); cbv iota; shape w Hc.
    + rewrite (answered _ _ _ _ _ _ (enable_enabledWorld _ _ _ _ _ _ _ _ _ _ _)).
      cbn [outcome effects]. rewrite filter_response_app, settingsWrites_no_response.
      repeat split.
    + rewrite (answered _ _ _ _ _ _ (enable_disabledWorld _ _ _ _ _ _ _ _)).
      repeat split.
    + rewrite (answered _ _ _ _ _ _ (disable_enabledWorld _ _ _ _ _ _ _ _ _ _)).
      repeat split.
    + rewrite (answered _ _ _ _ _ _
                (disable_disabled (disabledWorld pend cur vw vh nn nf ml) eq_refl)).
      repeat split.
  - repeat split.
Qed.

Lemma messages_answered_once_witness :
  List.filter isResponse
    (effects (onMessage (FOCUS_RULER_TOGGLE (JNum 1) None) (load 1280 800))) =
  [SendResponse (ToggleAck (JNum 1))].
Proof.
  exact (proj1 (proj2 (messages_answered_once (load 1280 800)
    (FOCUS_RULER_TOGGLE (JNum 1) None) (load_consistent 1280 800)))).
Defined.

(** ** The frame loop bounds the writes *)

Lemma dispatch_position_writes ev w :
  consistent w -> isHostEvent ev = true ->
  (length (positionWrites (effects (dispatch ev w))) <=
   if isFrame ev then 1 else 0)%nat.
Proof.
  intros Hc Hh. destruct ev as [y | vw' vh' | | m]; [| | | discriminate].
  - shape w Hc; [rewrite mousemove_enabledWorld | rewrite mousemove_disabledWorld];
      cbn; lia.
  - shape w Hc; [rewrite resize_enabledWorld | rewrite resize_disabledWorld];
      cbn; lia.
  - shape w Hc; [| rewrite frame_disabledWorld; cbn; lia].
    destruct pend as [y |];
      [rewrite frame_enabledWorld_pending | rewrite frame_enabledWorld_idle];
      cbn; lia.
Qed.

(** X7: However many pointer and resize events the page raises, the position of
    the mask is written at most once per animation frame: over any run of
    host events, the number of position writes is at most the number of
    frames in it. *)
Theorem position_writes_bounded_by_frames w evs :
  consistent w -> forallb isHostEvent evs = true ->
  (length (positionWrites (effects (run evs w))) <=
   length (List.filter isFrame evs))%nat.
Proof.
  revert w. induction evs as [| ev evs IH]; intros w Hc Hh.
  - cbn. lia.
  - cbn [forallb] in Hh. apply andb_prop in Hh as [Hev Hh].
    rewrite run_cons by exact Hc. cbn [effects].
    unfold positionWrites. rewrite List.filter_app, List.length_app.
    pose proof (dispatch_position_writes ev w Hc Hev) as H1.
    pose proof (IH (world (dispatch ev w)) (proj2 (dispatch_consistent ev w Hc)) Hh)
      as H2.
    unfold positionWrites in H1, H2. cbn [List.filter].
    destruct (isFrame ev); cbn [length]; lia.
Qed.

Lemma position_writes_bounded_by_frames_witness :
  (length (positionWrites (effects (run
     [MouseMove 10; MouseMove 20; AnimationFrame; MouseMove 30; MouseMove 40;
      MouseMove 50; Resize 1024 768; AnimationFrame; AnimationFrame]
     staged_then_toggled))) <= 3)%nat.
Proof.
  exact (position_writes_bounded_by_frames staged_then_toggled
    [MouseMove 10; MouseMove 20; AnimationFrame; MouseMove 30; MouseMove 40;
     MouseMove 50; Resize 1024 768; AnimationFrame; AnimationFrame]
    (session_consistent _ _ _ _) eq_refl).
Defined.

(** X8: While the ruler is enabled every frame requests exactly one next frame,
    under the handle the host hands out, and that handle is the one [rafId]
    remembers and the only callback pending afterwards.  A frame that finds
    no pending sample writes nothing and leaves positions and style alone. *)
Theorem frame_reschedules_once w :
  consistent w -> isEnabled (ruler w) = true ->
  let r := dispatch AnimationFrame w in
  let h := nextFrameHandle (page w) in
  outcome r = Returned tt /\
  List.filter isRequestFrame (effects r) = [RequestAnimationFrame h] /\
  rafId (ruler (world r)) = Some h /\
  frameCallbacks (page (world r)) = [h] /\
  nextFrameHandle (page (world r)) = S h /\
  isEnabled (ruler (world r)) = true /\
  (pendingY (ruler w) = None ->
   surfaceWrites (effects r) = [] /\
   currentY (ruler (world r)) = currentY (ruler w) /\
   overlay (ruler (world r)) = overlay (ruler w)).
Proof.
  intros Hc He. shape w Hc; [| discriminate].
  destruct pend as [y |].
  - rewrite frame_enabledWorld_pending. cbn. repeat split; congruence.
  - rewrite frame_enabledWorld_idle. cbn. repeat split.
Qed.

Lemma frame_reschedules_once_witness :
  frameCallbacks (page (world (dispatch AnimationFrame staged_then_toggled))) =
  [nextFrameHandle (page staged_then_toggled)].
Proof.
  destruct (frame_reschedules_once staged_then_toggled
              (session_consistent _ _ _ _) eq_refl) as (_ & _ & _ & H & _).
  exact H.
Defined.

(** ** Resize *)

(** X9: A resize always updates the viewport the page reports.  On an enabled
    ruler it writes exactly the two viewport properties, with the new size,
    and leaves every other property and both positions alone; on a disabled
    ruler it has no effect at all on the script. *)
Theorem resize_updates_viewport_only w vw' vh' name :
  consistent w ->
  let r := dispatch (Resize vw' vh') w in
  innerWidth (page (world r)) = vw' /\
  innerHeight (page (world r)) = vh' /\
  currentY (ruler (world r)) = currentY (ruler w) /\
  pendingY (ruler (world r)) = pendingY (ruler w) /\
  (isEnabled (ruler w) = true ->
   effects r = [SetProperty "--vw" (Px (JNum vw')); SetProperty "--vh" (Px (JNum vh'))] /\
   surfaceVar "--vw" (world r) = Some (Px (JNum vw')) /\
   surfaceVar "--vh" (world r) = Some (Px (JNum vh')) /\
   (name <> "--vw" -> name <> "--vh" -> surfaceVar name (world r) = surfaceVar name w)) /\
  (isEnabled (ruler w) = false -> effects r = [] /\ ruler (world r) = ruler w).
Proof.
  intros Hc. shape w Hc.
  - rewrite resize_enabledWorld. unfold surfaceVar. cbn.
    repeat split; try discriminate.
    + rewrite ?lookup_insert. repeat case_decide; congruence.
    + rewrite ?lookup_insert. repeat case_decide; congruence.
    + intros H1 H2. rewrite ?lookup_insert. repeat case_decide; congruence.
  - rewrite resize_disabledWorld. cbn. repeat split; discriminate.
Qed.

Lemma resize_updates_viewport_only_witness :
  surfaceVar "--vh" (world (dispatch (Resize 1024 768) staged_then_toggled)) =
  Some (Px (JNum 768)).
Proof.
  destruct (resize_updates_viewport_only staged_then_toggled 1024 768 "--ruler-y"
              (session_consistent _ _ _ _)) as (_ & _ & _ & _ & H & _).
  destruct (H eq_refl) as (_ & _ & H2 & _). exact H2.
Defined.

(** ** A host element left behind *)

Lemma filter_other h l :
  ~ In h l -> List.filter (fun x => negb (x =? h)%nat) l = l.
Proof.
  induction l as [| x l IH]; intros Hn; [reflexivity |].
  cbn. destruct (Nat.eqb_spec x h) as [-> | Hne].
  - exfalso. apply Hn. left. reflexivity.
  - cbn. rewrite IH; [reflexivity |]. intros Hin. apply Hn. right. exact Hin.
Qed.

Lemma existsb_last h l : existsb (Nat.eqb h) (l ++ [h]) = true.
Proof.
  rewrite existsb_app. cbn. rewrite Nat.eqb_refl. apply orb_true_iff.
  right. reflexivity.
Qed.

(** X10: When the document already holds elements with the host id, [enable]
    removes the first of them, and only that one, before it appends its own
    host after the others; its surface then exists. *)
Theorem enable_replaces_first_stale_host s old rest pend cur vw vh nn nf ml :
  ~ In old rest -> ~ In nn (old :: rest) ->
  let r := enable s (staleWorld (old :: rest) pend cur vw vh nn nf ml) in
  outcome r = Returned tt /\
  document (page (world r)) = (rest ++ [nn])%list /\
  shadowHost (ruler (world r)) = Some nn /\
  surfaceExists (world r) = true /\
  isEnabled (ruler (world r)) = true /\
  countEffects isCancelFrame (effects r) = 0%nat /\
  List.filter (fun e => match e with RemoveNode _ => true | _ => false end)
    (effects r) = [RemoveNode old].
Proof.
  intros Hold Hnn. cbv zeta. unfold staleWorld, surfaceExists. js_eval.
  assert (Hnn' : ~ In nn rest) by (intros H; apply Hnn; right; exact H).
  rewrite (filter_other old rest Hold), (filter_other nn rest Hnn').
  rewrite existsb_last. repeat split.
Qed.

Lemma enable_replaces_first_stale_host_witness :
  document (page (world (enable no_settings
                           (staleWorld [7%nat; 8%nat] None 400 1280 800 9 1 1)))) =
  [8%nat; 9%nat].
Proof.
  refine (proj1 (proj2 (enable_replaces_first_stale_host no_settings 7 [8%nat]
            None 400 1280 800 9 1 1 _ _))).
  - cbn. intros [H | []]. discriminate H.
  - cbn. intros [H | [H | []]]; discriminate H.
Defined.

(** * The service worker *)

(** ** Storage primitives *)

Lemma storage_set_union items (st : Store) :
  NoDup (map fst items) ->
  storage_set items st = (list_to_map items : Store) ∪ st.
Proof.
  revert st. induction items as [| [k v] items IH]; intros st Hnd.
  - cbn. rewrite (left_id_L ∅ (∪)). reflexivity.
  - cbn in Hnd. apply NoDup_cons in Hnd as [Hk Hnd].
    cbn [storage_set fold_left fst snd]. fold (storage_set items (<[k:=v]> st)).
    rewrite IH by exact Hnd. rewrite list_to_map_cons.
    apply map_eq. intros i. rewrite !lookup_union.
    destruct (decide (k = i)) as [-> | Hne].
    + rewrite !lookup_insert_eq.
      rewrite (not_elem_of_list_to_map_1 items i Hk).
      destruct (st !! i); reflexivity.
    + rewrite !lookup_insert_ne by exact Hne. reflexivity.
Qed.

Lemma lookup_storage_get_keys keys (st : Store) k :
  storage_get_keys keys st !! k = if decide (k ∈ keys) then st !! k else None.
Proof.
  unfold storage_get_keys. rewrite map_lookup_filter.
  destruct (st !! k) as [v |]; cbn; [| destruct (decide _); reflexivity].
  destruct (decide (k ∈ keys)) as [Hin | Hnin].
  - rewrite option_guard_True by exact Hin. reflexivity.
  - rewrite option_guard_False by exact Hnin. reflexivity.
Qed.

Lemma DEFAULTS_keys_NoDup : NoDup (map fst DEFAULTS).
Proof. apply NoDup_ListNoDup. cbn. repeat constructor; cbn; intuition discriminate. Qed.

(** ** Install and update *)

Lemma lookup_missingEntries ds (existing : Store) k :
  (list_to_map (missingEntries ds existing) : Store) !! k =
  if hasKey k existing then None else (list_to_map ds : Store) !! k.
Proof.
  induction ds as [| [k0 v0] ds IH].
  - cbn. rewrite lookup_empty. destruct (hasKey k existing); reflexivity.
  - unfold missingEntries in *. cbn [List.filter fst].
    destruct (hasKey k0 existing) eqn:Hk0; cbn [negb].
    + rewrite IH, list_to_map_cons.
      destruct (decide (k0 = k)) as [-> | Hne].
      * rewrite Hk0. reflexivity.
      * rewrite lookup_insert_ne by exact Hne. reflexivity.
    + rewrite !list_to_map_cons.
      destruct (decide (k0 = k)) as [-> | Hne].
      * rewrite Hk0, !lookup_insert_eq. reflexivity.
      * rewrite !lookup_insert_ne by exact Hne. exact IH.
Qed.

Lemma missingEntries_keys_NoDup ds (existing : Store) :
  NoDup (map fst ds) -> NoDup (map fst (missingEntries ds existing)).
Proof.
  induction ds as [| [k0 v0] ds IH]; intros Hnd; [exact Hnd |].
  cbn in Hnd. apply NoDup_cons in Hnd as [Hk Hnd].
  unfold missingEntries in *. cbn [List.filter fst].
  destruct (negb (hasKey k0 existing)); [| exact (IH Hnd)].
  cbn. apply NoDup_cons. split; [| exact (IH Hnd)].
  intros Hin. apply Hk.
  apply list_elem_of_fmap in Hin as ([k1 v1] & -> & Hin).
  apply list_elem_of_fmap. exists (k1, v1). split; [reflexivity |].
  apply list_elem_of_In in Hin. apply List.filter_In in Hin as [Hin _].
  apply list_elem_of_In. exact Hin.
Qed.

Lemma fst_seedMissing existing (st : Store) :
  fst (seedMissing existing st) = storage_set (missingEntries DEFAULTS existing) st.
Proof. unfold seedMissing. destruct (missingEntries DEFAULTS existing); reflexivity. Qed.

Lemma lookup_seedMissing existing (st : Store) k :
  fst (seedMissing existing st) !! k =
  if hasKey k existing then st !! k
  else match (list_to_map DEFAULTS : Store) !! k with
       | Some d => Some d
       | None => st !! k
       end.
Proof.
  rewrite fst_seedMissing.
  rewrite storage_set_union
    by apply missingEntries_keys_NoDup, DEFAULTS_keys_NoDup.
  rewrite lookup_union, lookup_missingEntries.
  destruct (hasKey k existing).
  - destruct (st !! k); reflexivity.
  - destruct (list_to_map DEFAULTS !! k), (st !! k); reflexivity.
Qed.

Lemma default_key_listed k d :
  In (k, d) DEFAULTS -> (list_to_map DEFAULTS : Store) !! k = Some d.
Proof.
  intros Hin. apply elem_of_list_to_map_1.
  - apply DEFAULTS_keys_NoDup.
  - apply list_elem_of_In. exact Hin.
Qed.

Lemma missingEntries_nil ds (existing : Store) :
  (forall kv, In kv ds -> hasKey (fst kv) existing = true) ->
  missingEntries ds existing = [].
Proof.
  induction ds as [| kv ds IH]; intros Hall; [reflexivity |].
  unfold missingEntries in *. cbn [List.filter].
  rewrite (Hall kv (or_introl eq_refl)). cbn [negb].
  apply IH. intros kv' Hin. apply Hall. right. exact Hin.
Qed.

(** X11: On an extension update the worker adds the defaults that are missing
    and nothing else: a key the store already holds keeps its value, a
    default key it lacks gets the default, any other key is untouched.
    Afterwards every default key is present, so running the update again
    writes nothing; and it writes nothing (and logs nothing) when no default
    was missing in the first place.  More generally the callback never writes
    a key that the read it was given contains. *)
Theorem update_only_adds_missing (st : Store) :
  let r := onInstalled "update" st in
  (forall k,
     fst r !! k = match st !! k with
                  | Some v => Some v
                  | None => (list_to_map DEFAULTS : Store) !! k
                  end) /\
  (forall kv, In kv DEFAULTS -> hasKey (fst kv) (fst r) = true) /\
  onInstalled "update" (fst r) = (fst r, []) /\
  ((forall kv, In kv DEFAULTS -> hasKey (fst kv) st = true) -> r = (st, [])) /\
  (forall existing k,
     hasKey k existing = true -> fst (seedMissing existing st) !! k = st !! k).
Proof.
  cbv zeta.
  assert (Hlook : forall s k,
    fst (onInstalled "update" s) !! k =
    match s !! k with
    | Some v => Some v
    | None => (list_to_map DEFAULTS : Store) !! k
    end).
  { intros s k. unfold onInstalled. cbn [String.eqb Ascii.eqb Bool.eqb fst snd].
    rewrite lookup_seedMissing. unfold hasKey.
    destruct (s !! k); [reflexivity |].
    destruct (list_to_map DEFAULTS !! k); reflexivity. }
  assert (Hall : forall s kv, In kv DEFAULTS ->
    hasKey (fst kv) (fst (onInstalled "update" s)) = true).
  { intros s [k d] Hin. unfold hasKey. rewrite Hlook. cbn [fst].
    rewrite (default_key_listed k d Hin). destruct (s !! k); reflexivity. }
  assert (Hnone : forall s, (forall kv, In kv DEFAULTS -> hasKey (fst kv) s = true) ->
    onInstalled "update" s = (s, [])).
  { intros s Hs. unfold onInstalled, seedMissing.
    cbn [String.eqb Ascii.eqb Bool.eqb fst snd].
    rewrite (missingEntries_nil DEFAULTS s Hs). reflexivity. }
  split; [apply Hlook |]. split; [apply Hall |].
  split; [apply Hnone, Hall |]. split; [apply Hnone |].
  intros existing k Hk. rewrite lookup_seedMissing, Hk. reflexivity.
Qed.

Lemma update_only_adds_missing_witness :
  onInstalled "update" (defaultsOver ∅) = (defaultsOver ∅, []).
Proof.
  apply (update_only_adds_missing (defaultsOver ∅)).
  intros kv Hin. unfold hasKey, defaultsOver.
  rewrite lookup_union, lookup_empty. destruct kv as [k d]. cbn [fst].
  rewrite (default_key_listed k d Hin). reflexivity.
Defined.

Lemma boot_result_enabled vw vh result :
  strict_true (focusRulerEnabled result) = true ->
  boot vw vh (StorageResult result) =
  enabledWorld 0 1
    (initialStyle
       {| height := nullish_or (rulerHeight result) (JNum DEFAULT_HEIGHT);
          opacity := nullish_or (dimOpacity result) (JNum DEFAULT_OPACITY) |}
       (vh / 2) vw vh)
    None (vh / 2) vw vh 1 2 1.
Proof.
  intros Hs. unfold boot, init. rewrite load_shape.
  cbn -[enable disabledWorld]. rewrite Hs. rewrite enable_disabledWorld. reflexivity.
Qed.

Lemma boot_result_disabled vw vh result :
  strict_true (focusRulerEnabled result) = false ->
  boot vw vh (StorageResult result) = disabledWorld None (vh / 2) vw vh 0 1 1.
Proof.
  intros Hs. unfold boot, init. rewrite load_shape.
  cbn -[enable disabledWorld]. rewrite Hs. reflexivity.
Qed.

Lemma boot_listeners vw vh reply : onMessageListeners (page (boot vw vh reply)) = 1%nat.
Proof.
  destruct reply as [result | e]; [| reflexivity].
  destruct (strict_true (focusRulerEnabled result)) eqn:Hs.
  - rewrite boot_result_enabled by exact Hs. reflexivity.
  - rewrite boot_result_disabled by exact Hs. reflexivity.
Qed.

(** A page with one message listener handles an incoming message once. *)
Lemma receive_one m w :
  consistent w -> onMessageListeners (page w) = 1%nat ->
  world (run [Incoming m] w) = world (onMessage m w).
Proof.
  intros Hc H1. rewrite run_cons by exact Hc. cbn [run world].
  unfold dispatch. cbn -[deliver onMessage]. rewrite H1. cbn [deliver].
  destruct (onMessage_tame m w Hc) as ([a Ho] & _).
  cbn -[onMessage]. rewrite Ho. reflexivity.
Qed.

Lemma strict_true_truthy v : strict_true v = true -> truthy v = true.
Proof. destruct v as [| | [] |]; cbn; congruence. Qed.

Lemma view_truthy o v : fieldView o = Some v -> truthy v = storeTruthy o.
Proof.
  destruct o as [[v' | s] |]; cbn; intros H; inversion H; subst; reflexivity.
Qed.

Lemma rulerView_flag (stored : Store) r :
  rulerView stored = Some r ->
  truthy (focusRulerEnabled r) = storeTruthy (stored !! "focusRulerEnabled").
Proof.
  unfold rulerView. intros H.
  destruct (fieldView (stored !! "focusRulerEnabled")) as [f |] eqn:Hf; [| discriminate].
  destruct (fieldView (stored !! "rulerHeight")); [| discriminate].
  destruct (fieldView (stored !! "dimOpacity")); [| discriminate].
  inversion H; subst. cbn. apply view_truthy, Hf.
Qed.

Lemma lookup_default_key (st : Store) k :
  In k (map fst DEFAULTS) -> storage_get_keys (map fst DEFAULTS) st !! k = st !! k.
Proof.
  intros Hin. rewrite lookup_storage_get_keys.
  destruct (decide (k ∈ map fst DEFAULTS)) as [_ | Hn]; [reflexivity |].
  exfalso. apply Hn, list_elem_of_In, Hin.
Qed.

Ltac default_key := cbn; tauto.

Lemma stored_anyActive (st : Store) :
  anyActive (storage_get_keys (map fst DEFAULTS) st) = anyActive st.
Proof. unfold anyActive. rewrite !lookup_default_key by default_key. reflexivity. Qed.

Lemma stored_rulerView (st : Store) :
  rulerView (storage_get_keys (map fst DEFAULTS) st) = rulerView st.
Proof. unfold rulerView. rewrite !lookup_default_key by default_key. reflexivity. Qed.

(** X12: On install the worker writes every default over the store, whatever it
    held, and leaves other keys alone; the ruler keys then read
    off/40/0.75, so a page loaded afterwards starts with the ruler disabled.
    A reason other than install or update does nothing. *)
Theorem install_writes_defaults (st : Store) :
  let r := onInstalled "install" st in
  fst r = defaultsOver st /\
  (forall k d, In (k, d) DEFAULTS -> fst r !! k = Some d) /\
  (forall k, ~ In k (map fst DEFAULTS) -> fst r !! k = st !! k) /\
  snd r = [StorageSet DEFAULTS;
           ConsoleLog "[ProjectOtter] Storage initialized with defaults." []] /\
  rulerView (fst r) = Some (mkStored (JBool false) (JNum 40) (JNum 0.75)) /\
  (forall vw vh,
     isEnabled (ruler (boot vw vh
       (StorageResult (mkStored (JBool false) (JNum 40) (JNum 0.75))))) = false) /\
  (forall reason, reason <> "install" -> reason <> "update" ->
     onInstalled reason st = (st, [])).
Proof.
  cbv zeta.
  assert (Hfst : fst (onInstalled "install" st) = defaultsOver st).
  { unfold onInstalled. cbn [String.eqb Ascii.eqb Bool.eqb fst snd].
    apply storage_set_union, DEFAULTS_keys_NoDup. }
  assert (Hdef : forall k d, In (k, d) DEFAULTS ->
            fst (onInstalled "install" st) !! k = Some d).
  { intros k d Hin. rewrite Hfst. unfold defaultsOver.
    rewrite lookup_union, (default_key_listed k d Hin).
    destruct (st !! k); reflexivity. }
  split; [exact Hfst |]. split; [exact Hdef |].
  split; [| split; [reflexivity | split; [| split]]].
  - intros k Hk. rewrite Hfst. unfold defaultsOver.
    apply lookup_union_r, not_elem_of_list_to_map_1.
    intros Hin. apply Hk, list_elem_of_In, Hin.
  - unfold rulerView.
    rewrite (Hdef "focusRulerEnabled" (Val (JBool false))) by default_key.
    rewrite (Hdef "rulerHeight" (Val (JNum 40))) by default_key.
    rewrite (Hdef "dimOpacity" (Val (JNum 0.75))) by default_key.
    reflexivity.
  - intros vw vh. rewrite boot_result_disabled by reflexivity. reflexivity.
  - intros reason H1 H2. unfold onInstalled.
    apply String.eqb_neq in H1, H2. rewrite H1, H2. reflexivity.
Qed.

Lemma install_writes_defaults_witness :
  onInstalled "startup" (∅ : Store) = (∅, []) /\
  fst (onInstalled "install" (<["rulerHeight" := Val (JNum 60)]> ∅)) !! "rulerHeight" =
  Some (Val (JNum 40)).
Proof.
  split.
  - apply (install_writes_defaults ∅); discriminate.
  - apply (install_writes_defaults (<["rulerHeight" := Val (JNum 60)]> ∅)).
    cbn. tauto.
Defined.

(** * The initial position is taken when the script is loaded *)













(** * The service worker and the page *)

(** ** The keyboard shortcut *)

Lemma lookup_single_key (st : Store) key :
  storage_get_keys [key] st !! key = st !! key.
Proof.
  rewrite lookup_storage_get_keys.
  destruct (decide (key ∈ [key])) as [_ | Hn]; [reflexivity |].
  exfalso. apply Hn. apply list_elem_of_In. left. reflexivity.
Qed.

Lemma received_set tab items effs :
  received tab (StorageSet items :: effs) = received tab effs.
Proof. reflexivity. Qed.

Lemma received_send tab m effs :
  received tab (TabsSendMessage tab m :: effs) =
  match asMessage m with
  | Some msg => Incoming msg :: received tab effs
  | None => received tab effs
  end.
Proof.
  unfold received. cbn. rewrite Nat.eqb_refl. destruct (asMessage m); reflexivity.
Qed.

Lemma onCommand_ruler tabs (st : Store) :
  onCommand "toggle-focus-ruler" tabs st =
  flipFlag "focusRulerEnabled" RulerToggle
    (storage_get_keys ["focusRulerEnabled"] st) tabs st.
Proof. unfold onCommand. cbn [String.eqb Ascii.eqb Bool.eqb]. reflexivity. Qed.



(** X14: The tab that the shortcut switches on shows the default thickness and
    intensity (40, 0.75), whatever is stored, because the message carries no
    settings; the store then holds the flag [true] beside the stored
    thickness and intensity, and a page loaded from it shows those (40 and
    0.75 only where they are missing or [null]). *)
Theorem shortcut_enables_with_defaults (st : Store) id w h o :
  storeTruthy (st !! "focusRulerEnabled") = false ->
  st !! "rulerHeight" = Some (Val h) -> st !! "dimOpacity" = Some (Val o) ->
  consistent w -> isEnabled (ruler w) = false ->
  onMessageListeners (page w) = 1%nat ->
  let r := onCommand "toggle-focus-ruler" [Some (S id)] st in
  let w' := world (run (received (S id) (snd r)) w) in
  isEnabled (ruler w') = true /\
  surfaceVar "--ruler-height" w' = Some (Px (JNum DEFAULT_HEIGHT)) /\
  surfaceVar "--dim-opacity" w' = Some (Plain (JNum DEFAULT_OPACITY)) /\
  rulerView (fst r) = Some (mkStored (JBool true) h o) /\
  (forall vw vh,
     let w2 := boot vw vh (StorageResult (mkStored (JBool true) h o)) in
     isEnabled (ruler w2) = true /\
     surfaceVar "--ruler-height" w2 = Some (Px (nullish_or h (JNum DEFAULT_HEIGHT))) /\
     surfaceVar "--dim-opacity" w2 = Some (Plain (nullish_or o (JNum DEFAULT_OPACITY)))).
Proof.
  intros Hf Hh Ho Hc He H1. cbv zeta.
  rewrite onCommand_ruler. unfold flipFlag.
  rewrite lookup_single_key, Hf. cbn [negb fst snd broadcastToActiveTab].
  rewrite received_set, received_send. cbn [asMessage].
  change (received (S id) []) with (@nil Event).
  rewrite receive_one by assumption.
  rewrite onMessage_world by exact Hc. cbn [truthy optional_settings].
  shape w Hc; [discriminate |].
  rewrite enable_disabledWorld. cbn [world].
  split; [reflexivity |]. split; [reflexivity |]. split; [reflexivity |]. split.
  - unfold rulerView. cbn [storage_set fold_left fst snd].
    rewrite lookup_insert_eq, !lookup_insert_ne by discriminate.
    rewrite Hh, Ho. reflexivity.
  - intros vw' vh'. rewrite boot_result_enabled by reflexivity.
    unfold surfaceVar. cbn [overlay ruler enabledWorld isEnabled].
    rewrite initialStyle_height, initialStyle_opacity. cbn [height opacity].
    rewrite !default_after_nullish. repeat split.
Qed.

Lemma shortcut_enables_with_defaults_witness :
  surfaceVar "--ruler-height"
    (world (run (received 5 (snd (onCommand "toggle-focus-ruler" [Some 5%nat]
                                    (<["rulerHeight" := Val (JNum 60)]>
                                       (<["dimOpacity" := Val (JNum 0.3)]> ∅)))))
                (boot 1280 800 (StorageFailure "denied")))) =
  Some (Px (JNum 40)) /\
  surfaceVar "--ruler-height"
    (boot 1280 800 (StorageResult (mkStored (JBool true) (JNum 60) (JNum 0.3)))) =
  Some (Px (JNum 60)).
Proof.
  destruct (shortcut_enables_with_defaults
              (<["rulerHeight" := Val (JNum 60)]> (<["dimOpacity" := Val (JNum 0.3)]> ∅))
              4 (boot 1280 800 (StorageFailure "denied")) (JNum 60) (JNum 0.3))
    as (_ & H1 & _ & _ & H2); try (vm_compute; reflexivity).
  - apply boot_consistent.
  - split; [exact H1 | exact (proj1 (proj2 (H2 1280 800)))].
Defined.

(** ** The navigation guard *)

(** X15: When a tab finishes loading the worker sends it at most one message: a
    reapply carrying the stored default keys, and only if one of the seven
    feature flags is truthy.  Nothing is sent for any other status.  Once the
    page has run [init] on the same store and received what was sent, its
    ruler is enabled, with a surface, exactly when the stored ruler flag is
    truthy. *)
Theorem navigation_restores_ruler (st : Store) tab vw vh r :
  rulerView st = Some r ->
  let effs := onUpdated tab (Some "complete") st in
  let w := world (run (received tab effs) (boot vw vh (StorageResult r))) in
  effs = (if anyActive st
          then [TabsSendMessage tab (Reapply (storage_get_keys (map fst DEFAULTS) st))]
          else []) /\
  (forall k, In k (map fst DEFAULTS) ->
     storage_get_keys (map fst DEFAULTS) st !! k = st !! k) /\
  (forall k, ~ In k (map fst DEFAULTS) ->
     storage_get_keys (map fst DEFAULTS) st !! k = None) /\
  isEnabled (ruler w) = storeTruthy (st !! "focusRulerEnabled") /\
  surfaceExists w = storeTruthy (st !! "focusRulerEnabled") /\
  (forall status, status <> Some "complete" -> onUpdated tab status st = []).
Proof.
  intros Hr. cbv zeta.
  assert (Heffs : onUpdated tab (Some "complete") st =
    if anyActive st
    then [TabsSendMessage tab (Reapply (storage_get_keys (map fst DEFAULTS) st))]
    else []).
  { unfold onUpdated. cbn [String.eqb Ascii.eqb Bool.eqb].
    rewrite stored_anyActive. reflexivity. }
  pose proof (rulerView_flag st r Hr) as Hflag.
  pose proof (boot_consistent vw vh (StorageResult r)) as Hc.
  assert (Hst : isEnabled (ruler (world (run (received tab (onUpdated tab (Some "complete") st))
                                   (boot vw vh (StorageResult r))))) =
                storeTruthy (st !! "focusRulerEnabled") /\
                surfaceExists (world (run (received tab (onUpdated tab (Some "complete") st))
                                   (boot vw vh (StorageResult r)))) =
                storeTruthy (st !! "focusRulerEnabled")).
  { rewrite Heffs. destruct (anyActive st) eqn:Ha.
    - rewrite received_send. cbn [asMessage]. rewrite stored_rulerView, Hr.
      change (received tab []) with (@nil Event).
      rewrite receive_one by (exact Hc || apply boot_listeners).
      rewrite onMessage_world by exact Hc. cbv zeta.
      change (default _ (Some r)) with r. rewrite <- Hflag.
      destruct (truthy (focusRulerEnabled r));
        [apply enable_observed | apply disable_observed]; exact Hc.
    - change (received tab []) with (@nil Event). cbn [run ret world].
      assert (Hoff : storeTruthy (st !! "focusRulerEnabled") = false).
      { unfold anyActive in Ha. repeat (apply orb_false_iff in Ha as [Ha _]). exact Ha. }
      rewrite Hoff.
      assert (Hs : strict_true (focusRulerEnabled r) = false).
      { destruct (strict_true (focusRulerEnabled r)) eqn:Hs; [| reflexivity].
        apply strict_true_truthy in Hs. congruence. }
      rewrite boot_result_disabled by exact Hs. split; reflexivity. }
  split; [exact Heffs |].
  split; [intros k Hk; apply lookup_default_key, Hk |].
  split.
  - intros k Hk. rewrite lookup_storage_get_keys.
    destruct (decide (k ∈ map fst DEFAULTS)) as [Hin | _]; [| reflexivity].
    exfalso. apply Hk, list_elem_of_In, Hin.
  - split; [apply Hst |]. split; [apply Hst |].
    intros status Hs. unfold onUpdated. destruct status as [s' |]; [| reflexivity].
    destruct (String.eqb_spec s' "complete") as [-> | Hne]; [congruence | reflexivity].
Qed.

Lemma navigation_restores_ruler_witness :
  isEnabled (ruler (world (run
    (received 5 (onUpdated 5 (Some "complete")
                   (<["focusRulerEnabled" := Val (JNum 1)]> ∅)))
    (boot 1280 800 (StorageResult (mkStored (JNum 1) JUndefined JUndefined)))))) = true.
Proof.
  destruct (navigation_restores_ruler (<["focusRulerEnabled" := Val (JNum 1)]> ∅)
              5 1280 800 (mkStored (JNum 1) JUndefined JUndefined))
    as (_ & _ & _ & H & _); [vm_compute; reflexivity |].
  rewrite H. vm_compute. reflexivity.
Defined.
